(** * Calculator: the reducer of [src/Calculator.tsx] and its evaluator

    The development embeds the pure part of the calculator (the evaluator
    [executeOperation], the helper [compute] and the reducer
    [calculatorReducer]) together with the platform operations the code
    calls on strings and numbers ([parseFloat], [isNaN], number to string
    conversion, [includes], [slice]).

    - A JavaScript number is an IEEE 754 binary64 value: [spec_float] of the
      Standard Library at precision 53 and maximal exponent 1024.
    - A JavaScript string is a sequence of UTF-16 code units; the model keeps
      the code units below 256, one [ascii] each (so the division sign of the
      [Operation] enum is the single code unit 247). *)

From Stdlib Require Import ZArith Bool List Lia Ascii String.
From Stdlib Require Import Floats.SpecFloat.
From Stdlib Require Import Decimal DecimalString.
Import ListNotations.

Local Open Scope string_scope.
Local Open Scope Z_scope.

(** ** Numbers *)

Module JSNumber.

Definition number := spec_float.

Definition prec : Z := 53.
Definition emax : Z := 1024.

Definition NaN : number := S754_nan.
Definition Infinity : number := S754_infinity false.

(** The arithmetic operators [+], [-], [*] and [/] on numbers. *)
Definition add (a b : number) : number := SFadd prec emax a b.
Definition sub (a b : number) : number := SFsub prec emax a b.
Definition mul (a b : number) : number := SFmul prec emax a b.
Definition div (a b : number) : number := SFdiv prec emax a b.

(** The global [isNaN], on an argument that already is a number. *)
Definition isNaN (x : number) : bool :=
  match x with
  | S754_nan => true
  | _ => false
  end.

(** Structural equality of two number values. *)
Definition eqb (x y : number) : bool :=
  match x, y with
  | S754_zero s, S754_zero t => Bool.eqb s t
  | S754_infinity s, S754_infinity t => Bool.eqb s t
  | S754_nan, S754_nan => true
  | S754_finite s m e, S754_finite t n f =>
      Bool.eqb s t && Pos.eqb m n && Z.eqb e f
  | _, _ => false
  end.

(** The number value of the real [(-1)^neg * m * 10^e], for [0 <= m]:
    rounded to the nearest binary64 value, ties to even, overflowing to
    an infinity.  A zero keeps the sign [neg]. *)
Definition of_decimal (neg : bool) (m e : Z) : number :=
  match m with
  | Zpos p =>
      if 0 <=? e then
        binary_normalize prec emax (cond_Zopp neg (Zpos p * 10 ^ e)) 0 neg
      else
        let '(q, e', l) :=
          SFdiv_core_binary prec emax (Zpos p) 0 (10 ^ (- e)) 0 in
        binary_round_aux prec emax neg q e' l
  | _ => S754_zero neg
  end.

(** The number value of an integer. *)
Definition of_Z (z : Z) : number :=
  of_decimal (z <? 0) (Z.abs z) 0.

End JSNumber.

Export JSNumber.

(** ** Strings *)

Module JSString.

Definition codeUnit (c : ascii) : N := N_of_ascii c.

(** White space and line terminators, as [parseFloat] skips them
    (the code units below 256: TAB, LF, VT, FF, CR, SP, NBSP). *)
Definition isStrWhiteSpaceChar (c : ascii) : bool :=
  let u := codeUnit c in
  ((9 <=? u) && (u <=? 13) || (u =? 32) || (u =? 160))%N.

Fixpoint trimStart (s : string) : string :=
  match s with
  | String c r => if isStrWhiteSpaceChar c then trimStart r else s
  | EmptyString => s
  end.

(** [s.includes(t)]: [t] occurs in [s] at some position. *)
Fixpoint includes (s t : string) : bool :=
  prefix t s
  || match s with
     | String _ r => includes r t
     | EmptyString => false
     end.

(** [s.slice(start, end)], negative indices counting from the end. *)
Definition slice (s : string) (start end_ : Z) : string :=
  let len := Z.of_nat (String.length s) in
  let from := if start <? 0 then Z.max (len + start) 0 else Z.min start len in
  let to := if end_ <? 0 then Z.max (len + end_) 0 else Z.min end_ len in
  substring (Z.to_nat from) (Z.to_nat (Z.max (to - from) 0)) s.

Definition isDecimalDigit (c : ascii) : bool :=
  let u := codeUnit c in ((48 <=? u) && (u <=? 57))%N.

Definition digitValue (c : ascii) : Z := Z.of_N (codeUnit c) - 48.

(** Number of occurrences of the decimal point in a string. *)
Fixpoint countPoints (s : string) : nat :=
  match s with
  | String c r => ((if Ascii.eqb c "." then 1 else 0) + countPoints r)%nat
  | EmptyString => 0%nat
  end.

(** [n] copies of the digit 0. *)
Fixpoint zeros (n : nat) : string :=
  match n with
  | O => ""
  | S n' => String "0" (zeros n')
  end.

(** The decimal digits of a natural number, most significant first. *)
Definition decimalString (z : Z) : string :=
  NilEmpty.string_of_uint (N.to_uint (Z.to_N z)).

End JSString.

Export JSString.

(** ** [parseFloat] *)

Module ParseFloat.

(** The longest run of decimal digits at the start of [s]: the value
    accumulated on [acc], the number of digits read on [n], and the rest. *)
Fixpoint decimalDigits (acc : Z) (n : nat) (s : string) : Z * nat * string :=
  match s with
  | String c r =>
      if isDecimalDigit c
      then decimalDigits (10 * acc + digitValue c) (S n) r
      else (acc, n, s)
  | EmptyString => (acc, n, s)
  end.

Definition unsignedInteger (s : string) : option Z :=
  match decimalDigits 0 0 s with
  | (_, O, _) => None
  | (v, _, _) => Some v
  end.

(** Value of the ExponentPart that starts [s]; 0 when [s] does not start
    with a complete one. *)
Definition exponentPart (s : string) : Z :=
  match s with
  | String c r =>
      if Ascii.eqb c "e" || Ascii.eqb c "E" then
        match r with
        | String "+" r' =>
            match unsignedInteger r' with Some v => v | None => 0 end
        | String "-" r' =>
            match unsignedInteger r' with Some v => - v | None => 0 end
        | _ =>
            match unsignedInteger r with Some v => v | None => 0 end
        end
      else 0
  | EmptyString => 0
  end.

Inductive literal : Type :=
| LitInfinity
| LitDecimal (m e : Z).

(** The longest prefix of [s] that is a StrUnsignedDecimalLiteral, as the
    pair of a digit string value [m] and a power of ten [e]. *)
Definition strUnsignedDecimalLiteral (s : string) : option literal :=
  if prefix "Infinity" s then Some LitInfinity
  else
    let '(i, ni, r1) := decimalDigits 0 0 s in
    match r1 with
    | String "." r2 =>
        let '(f, nf, r3) := decimalDigits i 0 r2 in
        match ni, nf with
        | O, O => None
        | _, _ => Some (LitDecimal f (exponentPart r3 - Z.of_nat nf))
        end
    | _ =>
        match ni with
        | O => None
        | _ => Some (LitDecimal i (exponentPart r1))
        end
    end.

(** An optional sign: whether it is a minus, and what follows it. *)
Definition signed (t : string) : bool * string :=
  match t with
  | String "+" r => (false, r)
  | String "-" r => (true, r)
  | _ => (false, t)
  end.

(** Whether [s], after its leading white space and an optional sign, starts
    with a StrUnsignedDecimalLiteral. *)
Definition hasNumericPrefix (s : string) : bool :=
  match strUnsignedDecimalLiteral (snd (signed (trimStart s))) with
  | Some _ => true
  | None => false
  end.

(** [parseFloat(s)]: the value of the longest numeric prefix of [s] after
    its leading white space, NaN when there is none.  The decimal value is
    rounded exactly, however many digits it has. *)
Definition parseFloat (s : string) : number :=
  let '(neg, r) := signed (trimStart s) in
  match strUnsignedDecimalLiteral r with
  | None => NaN
  | Some LitInfinity => S754_infinity neg
  | Some (LitDecimal m e) => of_decimal neg m e
  end.

End ParseFloat.

Export ParseFloat.

(** ** Number to string conversion, radix 10 *)

Module NumberToString.

Definition numDigits (z : Z) : Z :=
  Z.of_nat (String.length (decimalString z)).

(** For a positive rational [num / den], the integer [n] with
    [10^(n-1) <= num / den < 10^n]. *)
Definition decimalExponent (num den : Z) : Z :=
  if den <=? num then numDigits (num / den)
  else
    let d := numDigits (den / num) in
    if den <=? num * 10 ^ (d - 1) then 2 - d else 1 - d.

(** [num / den * 10^(k - n)] as a fraction. *)
Definition scaled (num den n k : Z) : Z * Z :=
  if n <=? k then (num * 10 ^ (k - n), den) else (num, den * 10 ^ (n - k)).

(** The two [k]-digit decimals around [num / den], as pairs [(n, s)]
    standing for [s * 10^(n - k)], nearest first. *)
Definition neighbours (num den n k : Z) : (Z * Z) * (Z * Z) :=
  let '(N, D) := scaled num den n k in
  let lo := N / D in
  let r := N mod D in
  let below := (n, lo) in
  let above :=
    if lo + 1 <? 10 ^ k then (n, lo + 1) else (n + 1, 10 ^ (k - 1)) in
  match 2 * r ?= D with
  | Lt => (below, above)
  | Gt => (above, below)
  | Eq => if Z.even lo then (below, above) else (above, below)
  end.

Definition roundTrips (x : number) (k : Z) (c : Z * Z) : bool :=
  let '(n, s) := c in JSNumber.eqb (of_decimal false s (n - k)) x.

(** Smallest number of digits [k], from [k] on, for which a neighbour
    converts back to [x]; after [fuel] failures the nearest one is kept. *)
Fixpoint shortest (fuel : nat) (x : number) (num den n k : Z) : Z * Z * Z :=
  let '(c1, c2) := neighbours num den n k in
  match fuel with
  | O => (fst c1, k, snd c1)
  | S fuel' =>
      if roundTrips x k c1 then (fst c1, k, snd c1)
      else if roundTrips x k c2 then (fst c2, k, snd c2)
      else shortest fuel' x num den n (k + 1)
  end.

(** The integers [n], [k] and [s] of Number::toString for the positive
    finite number [m * 2^e]. *)
Definition digitsOf (m : positive) (e : Z) : Z * Z * Z :=
  let '(num, den) :=
    if 0 <=? e then (Zpos m * 2 ^ e, 1) else (Zpos m, 2 ^ (- e)) in
  shortest 16 (S754_finite false m e) num den (decimalExponent num den) 1.

Definition formatDigits (n k s : Z) : string :=
  let ds := decimalString s in
  if (-5 <=? n) && (n <=? 21) then
    if k <=? n then ds ++ zeros (Z.to_nat (n - k))
    else if 0 <? n then
      substring 0 (Z.to_nat n) ds ++ "."
        ++ substring (Z.to_nat n) (Z.to_nat (k - n)) ds
    else "0." ++ zeros (Z.to_nat (- n)) ++ ds
  else
    let exponent :=
      (if n <? 0 then "-" else "+") ++ decimalString (Z.abs (n - 1)) in
    if k =? 1 then ds ++ "e" ++ exponent
    else
      substring 0 1 ds ++ "."
        ++ substring 1 (Z.to_nat (k - 1)) ds ++ "e" ++ exponent.

(** [x.toString(10)], which is also the string [x] turns into when it is
    concatenated to a string. *)
Definition toString (x : number) : string :=
  match x with
  | S754_nan => "NaN"
  | S754_zero _ => "0"
  | S754_infinity s => (if s then "-" else "") ++ "Infinity"
  | S754_finite s m e =>
      let '(n, k, d) := digitsOf m e in
      (if s then "-" else "") ++ formatDigits n k d
  end.

End NumberToString.

Export NumberToString.

(** ** The data model of [Calculator.tsx] *)

(** The supported operations; each member of the enum is a string at run
    time ([value]). *)
Module Operation.

Inductive t : Type :=
| add
| subtract
| divide
| multiply.

Definition value (operation : t) : string :=
  match operation with
  | add => "+"
  | subtract => "-"
  | divide => String (ascii_of_N 247) ""
  | multiply => "*"
  end.

End Operation.

(** The actions that can be sent to the reducer, one constructor per
    interface of the [CalculatorAction] union. *)
Inductive CalculatorAction : Type :=
| AppendNumberAction (digit : number)
| DeleteDigitAction
| AddDecimalPointAction
| ChooseOperation (operation : Operation.t)
| ComputeAction
| ClearAction.

Record CalculatorState : Type := {
  currentOperand : string;
  previousOperand : string;
  operation : option Operation.t
}.

Definition DEFAULT_CALCULATOR_STATE : CalculatorState :=
  {| currentOperand := ""; previousOperand := ""; operation := None |}.

(** Truthiness of [state.operation]: [undefined] is falsy, an enum member
    is truthy unless its string is empty. *)
Definition truthy (o : option Operation.t) : bool :=
  match o with
  | None => false
  | Some op => negb (String.eqb (Operation.value op) "")
  end.

(** The reducer, parameterised by the evaluator it calls: the two source
    files share every line of [compute] and [calculatorReducer]. *)
Section Reducer.

Variable executeOperation : Operation.t -> number -> number -> number.

Definition compute (state : CalculatorState) : CalculatorState :=
  let prev := parseFloat (previousOperand state) in
  let current := parseFloat (currentOperand state) in
  if isNaN prev || isNaN current then state
  else
    match operation state with
    | None => state
    | Some op =>
        {| currentOperand := toString (executeOperation op prev current);
           previousOperand := "";
           operation := None |}
    end.

Definition calculatorReducer
    (state : CalculatorState) (action : CalculatorAction) : CalculatorState :=
  match action with
  | AppendNumberAction digit =>
      {| currentOperand := currentOperand state ++ toString digit;
         previousOperand := previousOperand state;
         operation := operation state |}
  | DeleteDigitAction =>
      {| currentOperand := slice (currentOperand state) 0 (-1);
         previousOperand := previousOperand state;
         operation := operation state |}
  | AddDecimalPointAction =>
      {| currentOperand :=
           if includes (currentOperand state) "."
           then currentOperand state
           else currentOperand state ++ ".";
         previousOperand := previousOperand state;
         operation := operation state |}
  | ChooseOperation op =>
      let interimState :=
        if truthy (operation state) then compute state else state in
      {| currentOperand := "";
         previousOperand := currentOperand interimState;
         operation := Some op |}
  | ComputeAction => compute state
  | ClearAction => DEFAULT_CALCULATOR_STATE
  end.

(** The state after a sequence of actions, dispatched one by one. *)
Definition run (state : CalculatorState) (actions : list CalculatorAction)
  : CalculatorState :=
  fold_left calculatorReducer actions state.

End Reducer.

(** [src/Calculator.tsx] *)
Module Calculator.

Definition executeOperation (operation : Operation.t) (a b : number)
  : number :=
  match operation with
  | Operation.add => JSNumber.add a b
  | Operation.subtract => JSNumber.sub a b
  | Operation.divide => JSNumber.div a b
  | Operation.multiply => JSNumber.mul a b
  end.

Definition compute := compute executeOperation.
Definition calculatorReducer := calculatorReducer executeOperation.
Definition run := run executeOperation.

End Calculator.

(** The second copy of the component, the source file whose name is not
    known. *)
Module Duplicate.

Definition executeOperation (operation : Operation.t) (a b : number)
  : number :=
  match operation with
  | Operation.add => JSNumber.add a b
  | Operation.subtract => JSNumber.sub a b
  | Operation.divide => JSNumber.mul a b
  | Operation.multiply => JSNumber.div a b
  end.

Definition compute := compute executeOperation.
Definition calculatorReducer := calculatorReducer executeOperation.

End Duplicate.

(** ** The reducer as it runs, with the types erased

    At run time an action is an object with a string tag, an operation is a
    string, and a [switch] without a [default] falls through when no [case]
    matches: the function then returns [undefined].  Calling [toString] on
    [undefined] throws. *)
Module Runtime.

Inductive completion (A : Type) : Type :=
| Returns (a : A)
| ReturnsUndefined
| Throws.
Arguments Returns {A} a.
Arguments ReturnsUndefined {A}.
Arguments Throws {A}.

Record ActionObject : Type := {
  action_type : string;
  action_digit : option number;
  action_operation : option string
}.

Record StateObject : Type := {
  state_currentOperand : string;
  state_previousOperand : string;
  state_operation : option string
}.

Definition DEFAULT_CALCULATOR_STATE : StateObject :=
  {| state_currentOperand := "";
     state_previousOperand := "";
     state_operation := None |}.

(** [switch (operation)] of [src/Calculator.tsx], case by case. *)
Definition executeOperation (operation : string) (a b : number)
  : option number :=
  if String.eqb operation (Operation.value Operation.add)
  then Some (JSNumber.add a b)
  else if String.eqb operation (Operation.value Operation.subtract)
  then Some (JSNumber.sub a b)
  else if String.eqb operation (Operation.value Operation.divide)
  then Some (JSNumber.div a b)
  else if String.eqb operation (Operation.value Operation.multiply)
  then Some (JSNumber.mul a b)
  else None.

Definition compute (state : StateObject) : completion StateObject :=
  let prev := parseFloat (state_previousOperand state) in
  let current := parseFloat (state_currentOperand state) in
  if isNaN prev || isNaN current then Returns state
  else
    match state_operation state with
    | None => Returns state
    | Some op =>
        match executeOperation op prev current with
        | Some r =>
            Returns {| state_currentOperand := toString r;
                       state_previousOperand := "";
                       state_operation := None |}
        | None => Throws
        end
    end.

(** A string operand of [+]: an absent field reads as [undefined]. *)
Definition operandString (d : option number) : string :=
  match d with
  | Some x => toString x
  | None => "undefined"
  end.

Definition truthy (o : option string) : bool :=
  match o with
  | None => false
  | Some s => negb (String.eqb s "")
  end.

Definition calculatorReducer (state : StateObject) (action : ActionObject)
  : completion StateObject :=
  let tag := action_type action in
  if String.eqb tag "appendNumber" then
    Returns
      {| state_currentOperand :=
           state_currentOperand state ++ operandString (action_digit action);
         state_previousOperand := state_previousOperand state;
         state_operation := state_operation state |}
  else if String.eqb tag "deleteDigit" then
    Returns
      {| state_currentOperand := slice (state_currentOperand state) 0 (-1);
         state_previousOperand := state_previousOperand state;
         state_operation := state_operation state |}
  else if String.eqb tag "addDecimalPoint" then
    Returns
      {| state_currentOperand :=
           if includes (state_currentOperand state) "."
           then state_currentOperand state
           else state_currentOperand state ++ ".";
         state_previousOperand := state_previousOperand state;
         state_operation := state_operation state |}
  else if String.eqb tag "chooseOperation" then
    match
      (if truthy (state_operation state) then compute state
       else Returns state)
    with
    | Returns interimState =>
        Returns
          {| state_currentOperand := "";
             state_previousOperand := state_currentOperand interimState;
             state_operation := action_operation action |}
    | ReturnsUndefined => ReturnsUndefined
    | Throws => Throws
    end
  else if String.eqb tag "compute" then compute state
  else if String.eqb tag "clear" then Returns DEFAULT_CALCULATOR_STATE
  else ReturnsUndefined.

(** The objects that the typed values are at run time. *)
Definition actionObject (action : CalculatorAction) : ActionObject :=
  match action with
  | AppendNumberAction d =>
      {| action_type := "appendNumber";
         action_digit := Some d; action_operation := None |}
  | DeleteDigitAction =>
      {| action_type := "deleteDigit";
         action_digit := None; action_operation := None |}
  | AddDecimalPointAction =>
      {| action_type := "addDecimalPoint";
         action_digit := None; action_operation := None |}
  | ChooseOperation op =>
      {| action_type := "chooseOperation";
         action_digit := None;
         action_operation := Some (Operation.value op) |}
  | ComputeAction =>
      {| action_type := "compute";
         action_digit := None; action_operation := None |}
  | ClearAction =>
      {| action_type := "clear";
         action_digit := None; action_operation := None |}
  end.

Definition stateObject (state : CalculatorState) : StateObject :=
  {| state_currentOperand := currentOperand state;
     state_previousOperand := previousOperand state;
     state_operation := option_map Operation.value (operation state) |}.

End Runtime.

(** ** Sequences of actions *)

(** The payload of a digit button: one of the numbers 0 to 9. *)
Definition singleDigit (d : number) : bool :=
  existsb (fun z => JSNumber.eqb d (of_Z z)) [0; 1; 2; 3; 4; 5; 6; 7; 8; 9].

Definition digitPayload (action : CalculatorAction) : bool :=
  match action with
  | AppendNumberAction d => singleDigit d
  | _ => true
  end.

(** Two properties of states that the reducer maintains: a non-empty
    [previousOperand] comes with a pending operation, and [currentOperand]
    holds at most one decimal point. *)
Definition previousHasOperation (s : CalculatorState) : Prop :=
  previousOperand s <> "" -> operation s <> None.

Definition onePoint (s : CalculatorState) : Prop :=
  (countPoints (currentOperand s) <= 1)%nat.

(** ** The component [App] of [Calculator.tsx]: its buttons

    A button carries its label ([value]), an optional class name and a click
    handler; every handler dispatches one action to the reducer, so the
    handler is modelled as the action it dispatches. *)
Module App.

Record ButtonProps : Type := {
  value : string;
  className : option string;
  onClick : CalculatorAction
}.

Definition createNumberButtonProps (digit : number) : ButtonProps :=
  {| value := toString digit;
     className := None;
     onClick := AppendNumberAction digit |}.

Definition createOperationButtonProps (operation : Operation.t)
  : ButtonProps :=
  {| value := Operation.value operation;
     className := None;
     onClick := ChooseOperation operation |}.

Definition buttons : list ButtonProps :=
  [ {| value := "AC"; className := Some "span-two"; onClick := ClearAction |};
    {| value := "DEL"; className := None; onClick := DeleteDigitAction |};
    createOperationButtonProps Operation.divide;
    createNumberButtonProps (of_Z 1);
    createNumberButtonProps (of_Z 2);
    createNumberButtonProps (of_Z 3);
    createOperationButtonProps Operation.multiply;
    createNumberButtonProps (of_Z 5);
    createNumberButtonProps (of_Z 4);
    createNumberButtonProps (of_Z 6);
    createOperationButtonProps Operation.add;
    createNumberButtonProps (of_Z 7);
    createNumberButtonProps (of_Z 8);
    createNumberButtonProps (of_Z 9);
    createOperationButtonProps Operation.subtract;
    {| value := "."; className := None; onClick := AddDecimalPointAction |};
    createNumberButtonProps (of_Z 0);
    {| value := "="; className := Some "span-two";
       onClick := ComputeAction |} ].

(** The state that [useReducer] holds after the buttons [clicks] were
    clicked one after the other, starting from [state]. *)
Definition clicked (state : CalculatorState) (clicks : list ButtonProps)
  : CalculatorState :=
  Calculator.run state (map onClick clicks).

End App.

(** ** Vocabulary of the further properties *)

(** Exchange of the tags Divide and Multiply, in an operation, in the
    pending operation of a state and in the payload of an action. *)
Definition swapOperation (op : Operation.t) : Operation.t :=
  match op with
  | Operation.divide => Operation.multiply
  | Operation.multiply => Operation.divide
  | _ => op
  end.

Definition swapState (s : CalculatorState) : CalculatorState :=
  {| currentOperand := currentOperand s;
     previousOperand := previousOperand s;
     operation := option_map swapOperation (operation s) |}.

Definition swapAction (a : CalculatorAction) : CalculatorAction :=
  match a with
  | ChooseOperation op => ChooseOperation (swapOperation op)
  | _ => a
  end.

(** Additive operations, on which the two copies of the evaluator agree. *)
Definition additive (op : Operation.t) : bool :=
  match op with
  | Operation.add | Operation.subtract => true
  | _ => false
  end.

Definition additiveAction (a : CalculatorAction) : bool :=
  match a with
  | ChooseOperation op => additive op
  | _ => true
  end.

(** The actions that only edit [currentOperand]. *)
Definition typing (a : CalculatorAction) : bool :=
  match a with
  | AppendNumberAction _ | DeleteDigitAction | AddDecimalPointAction => true
  | _ => false
  end.

(** Strings made of decimal digits only. *)
Fixpoint allDigits (s : string) : bool :=
  match s with
  | String c r => isDecimalDigit c && allDigits r
  | EmptyString => true
  end.

(** The strings of a list, one after the other. *)
Fixpoint joined (l : list string) : string :=
  match l with
  | x :: r => x ++ joined r
  | [] => ""
  end.

(** ** Numeric strings

    In the words of the specification an operand is numeric or it is not.
    [numericString] is that notion, read on the whole string: after its
    leading white space and an optional sign, the string is a
    StrUnsignedDecimalLiteral from its first character to its last.
    [parseFloat] asks for less, a numeric prefix ([hasNumericPrefix]). *)

(** What follows the ExponentPart that starts [s]; [s] itself when it does
    not start with a complete one. *)
Definition afterExponentPart (s : string) : string :=
  let afterDigits t :=
    match decimalDigits 0 0 t with
    | (_, O, _) => s
    | (_, _, rest) => rest
    end in
  match s with
  | String c r =>
      if Ascii.eqb c "e" || Ascii.eqb c "E" then
        match r with
        | String "+" r' => afterDigits r'
        | String "-" r' => afterDigits r'
        | _ => afterDigits r
        end
      else s
  | EmptyString => s
  end.

(** What follows the longest StrUnsignedDecimalLiteral that starts [s]. *)
Definition afterLiteral (s : string) : option string :=
  if prefix "Infinity" s
  then Some (substring 8 (String.length s - 8) s)
  else
    let '(i, ni, r1) := decimalDigits 0 0 s in
    match r1 with
    | String "." r2 =>
        let '(f, nf, r3) := decimalDigits i 0 r2 in
        match ni, nf with
        | O, O => None
        | _, _ => Some (afterExponentPart r3)
        end
    | _ =>
        match ni with
        | O => None
        | _ => Some (afterExponentPart r1)
        end
    end.

Definition numericString (s : string) : bool :=
  match afterLiteral (snd (signed (trimStart s))) with
  | Some rest => String.eqb rest ""
  | None => false
  end.

(** * Properties *)

(** ** The platform operations on sample inputs *)

Example parseFloat_samples :
  parseFloat "12" = of_Z 12
  /\ parseFloat "  12abc" = of_Z 12
  /\ parseFloat "2.5" = of_decimal false 25 (-1)
  /\ parseFloat ".5e1" = of_Z 5
  /\ parseFloat "5." = of_Z 5
  /\ parseFloat "-0" = S754_zero true
  /\ parseFloat "1e400" = Infinity
  /\ parseFloat "-Infinity" = S754_infinity true
  /\ parseFloat "" = NaN
  /\ parseFloat "." = NaN
  /\ parseFloat "abc" = NaN
  /\ parseFloat "NaN" = NaN.
Proof. repeat split; vm_compute; reflexivity. Qed.

Example toString_samples :
  toString (of_Z 8) = "8"
  /\ toString (of_Z (-3)) = "-3"
  /\ toString (S754_zero true) = "0"
  /\ toString (parseFloat "0.1") = "0.1"
  /\ toString (JSNumber.add (parseFloat "0.1") (parseFloat "0.2"))
     = "0.30000000000000004"
  /\ toString (JSNumber.div (of_Z 1) (of_Z 3)) = "0.3333333333333333"
  /\ toString (parseFloat "123456789012345678") = "123456789012345680"
  /\ toString (parseFloat "1e21") = "1e+21"
  /\ toString (parseFloat "0.000001") = "0.000001"
  /\ toString (parseFloat "0.0000001") = "1e-7"
  /\ toString (parseFloat "1.5e-10") = "1.5e-10".
Proof. repeat split; vm_compute; reflexivity. Qed.

Example slice_includes_samples :
  slice "12." 0 (-1) = "12"
  /\ slice "" 0 (-1) = ""
  /\ includes "12.5" "." = true
  /\ includes "125" "." = false.
Proof. repeat split; reflexivity. Qed.

(** ** The evaluator *)

(** C1: the evaluator of [Calculator.tsx] maps each operation tag to its
    textbook operator, the first argument on the left: Add is [a + b],
    Subtract [a - b], Multiply [a * b], Divide [a / b].  So
    [evaluate(Subtract, 10, 4)] is 6 and [evaluate(Divide, 10, 4)] is 2.5,
    and [compute] passes [previousOperand] as [a] and [currentOperand] as
    [b]. *)
Theorem executeOperation_textbook :
  (forall a b : number,
      Calculator.executeOperation Operation.add a b = JSNumber.add a b
      /\ Calculator.executeOperation Operation.subtract a b = JSNumber.sub a b
      /\ Calculator.executeOperation Operation.multiply a b = JSNumber.mul a b
      /\ Calculator.executeOperation Operation.divide a b = JSNumber.div a b)
  /\ Calculator.executeOperation Operation.subtract (of_Z 10) (of_Z 4) = of_Z 6
  /\ Calculator.executeOperation Operation.divide (of_Z 10) (of_Z 4)
     = of_decimal false 25 (-1)
  /\ (forall s op,
         isNaN (parseFloat (previousOperand s)) = false ->
         isNaN (parseFloat (currentOperand s)) = false ->
         operation s = Some op ->
         currentOperand (Calculator.compute s)
         = toString (Calculator.executeOperation op
                       (parseFloat (previousOperand s))
                       (parseFloat (currentOperand s))))
  /\ Calculator.compute
       {| currentOperand := "4"; previousOperand := "10";
          operation := Some Operation.subtract |}
     = {| currentOperand := "6"; previousOperand := ""; operation := None |}
  /\ Calculator.compute
       {| currentOperand := "4"; previousOperand := "10";
          operation := Some Operation.divide |}
     = {| currentOperand := "2.5"; previousOperand := ""; operation := None |}.
Proof.
  split; [ intros a b; repeat split | ].
  split; [ vm_compute; reflexivity | ].
  split; [ vm_compute; reflexivity | ].
  split.
  - intros s op Hp Hc Ho.
    unfold Calculator.compute, compute.
    rewrite Hp, Hc, Ho. reflexivity.
  - split; vm_compute; reflexivity.
Qed.

Lemma executeOperation_textbook_witness :
  currentOperand
    (Calculator.compute
       {| currentOperand := "3"; previousOperand := "6";
          operation := Some Operation.divide |})
  = toString (Calculator.executeOperation Operation.divide
                (parseFloat "6") (parseFloat "3")).
Proof.
  apply (proj1 (proj2 (proj2 (proj2 executeOperation_textbook)))
           {| currentOperand := "3"; previousOperand := "6";
              operation := Some Operation.divide |}
           Operation.divide);
    vm_compute; reflexivity.
Defined.

(** C2: the two copies of the evaluator agree on Add and Subtract and swap
    the other two: Divide of the second copy is [a * b], the Multiply of the
    first, and Multiply of the second copy is [a / b], the Divide of the
    first.  The swap is a real difference: on 10 and 4 the copies disagree
    both on Divide and on Multiply. *)
Theorem executeOperation_copies_swap :
  (forall a b : number,
      Duplicate.executeOperation Operation.add a b
      = Calculator.executeOperation Operation.add a b
      /\ Duplicate.executeOperation Operation.subtract a b
         = Calculator.executeOperation Operation.subtract a b
      /\ Duplicate.executeOperation Operation.divide a b
         = Calculator.executeOperation Operation.multiply a b
      /\ Duplicate.executeOperation Operation.divide a b = JSNumber.mul a b
      /\ Duplicate.executeOperation Operation.multiply a b
         = Calculator.executeOperation Operation.divide a b
      /\ Duplicate.executeOperation Operation.multiply a b = JSNumber.div a b)
  /\ Duplicate.executeOperation Operation.divide (of_Z 10) (of_Z 4)
     <> Calculator.executeOperation Operation.divide (of_Z 10) (of_Z 4)
  /\ Duplicate.executeOperation Operation.multiply (of_Z 10) (of_Z 4)
     <> Calculator.executeOperation Operation.multiply (of_Z 10) (of_Z 4).
Proof.
  split; [ intros a b; repeat split | ].
  split; vm_compute; discriminate.
Qed.

(** ** Parsing never produces NaN out of a literal *)

Lemma shr_1_nonneg (mrs : shr_record) :
  0 <= shr_m mrs -> 0 <= shr_m (shr_1 mrs).
Proof.
  destruct mrs as [m r s]. destruct m as [|p|p]; simpl; try lia.
  intros _. destruct p; simpl; lia.
Qed.

Lemma iter_shr_1_nonneg (p : positive) :
  forall mrs, 0 <= shr_m mrs -> 0 <= shr_m (iter_pos shr_1 p mrs).
Proof.
  induction p as [p IH | p IH | ]; intros mrs H; simpl.
  - apply IH, IH, shr_1_nonneg, H.
  - apply IH, IH, H.
  - apply shr_1_nonneg, H.
Qed.

Lemma shr_nonneg (mrs : shr_record) (e n : Z) :
  0 <= shr_m mrs -> 0 <= shr_m (fst (shr mrs e n)).
Proof.
  intros H. destruct n; simpl; try exact H.
  apply iter_shr_1_nonneg, H.
Qed.

Lemma shr_fexp_nonneg (m e : Z) (l : location) :
  0 <= m -> 0 <= shr_m (fst (shr_fexp prec emax m e l)).
Proof.
  intros H. unfold shr_fexp. apply shr_nonneg.
  destruct l as [|[ | | ]]; exact H.
Qed.

Lemma round_nearest_even_nonneg (m : Z) (l : location) :
  0 <= m -> 0 <= round_nearest_even m l.
Proof.
  intros H. destruct l as [|[ | | ]]; simpl; try lia.
  destruct (Z.even m); lia.
Qed.

Lemma binary_round_aux_not_NaN (sx : bool) (mx ex : Z) (lx : location) :
  0 <= mx -> isNaN (binary_round_aux prec emax sx mx ex lx) = false.
Proof.
  intros H. unfold binary_round_aux.
  pose proof (shr_fexp_nonneg mx ex lx H) as H1.
  destruct (shr_fexp prec emax mx ex lx) as [mrs1 e1]. simpl in H1.
  pose proof (shr_fexp_nonneg _ e1 loc_Exact
                (round_nearest_even_nonneg _ (loc_of_shr_record mrs1) H1))
    as H2.
  destruct (shr_fexp prec emax _ e1 loc_Exact) as [mrs2 e2]. simpl in H2.
  destruct (shr_m mrs2) as [|q|q]; [ reflexivity | | lia ].
  destruct (e2 <=? emax - prec); reflexivity.
Qed.

Lemma binary_normalize_not_NaN (m e : Z) (szero : bool) :
  isNaN (binary_normalize prec emax m e szero) = false.
Proof.
  destruct m as [|p|p]; simpl; [ reflexivity | | ];
    unfold binary_round;
    destruct (shl_align _ _ _) as [mz ez];
    apply binary_round_aux_not_NaN; lia.
Qed.

Lemma of_decimal_not_NaN (neg : bool) (m e : Z) :
  isNaN (of_decimal neg m e) = false.
Proof.
  unfold of_decimal. destruct m as [|p|p]; try reflexivity.
  destruct (Z.leb_spec 0 e) as [He | He];
    [ apply binary_normalize_not_NaN | ].
  unfold SFdiv_core_binary.
  set (m' := match _ - _ - _ with Z0 => _ | Zpos _ => _ | Zneg _ => _ end).
  assert (Hm : 0 <= m').
  { subst m'. destruct (_ - _ - _); try lia. apply Z.shiftl_nonneg. lia. }
  pose proof (Z.div_pos m' (10 ^ (- e)) Hm) as Hq.
  unfold Z.div in Hq.
  destruct (Z.div_eucl m' (10 ^ (- e))) as [q r].
  apply binary_round_aux_not_NaN, Hq.
  apply Z.pow_pos_nonneg; lia.
Qed.

(** [parseFloat] gives NaN exactly on the strings without a numeric
    prefix. *)
Lemma parseFloat_NaN_iff (s : string) :
  isNaN (parseFloat s) = negb (hasNumericPrefix s).
Proof.
  unfold parseFloat, hasNumericPrefix.
  destruct (signed (trimStart s)) as [neg r]. simpl.
  destruct (strUnsignedDecimalLiteral r) as [[|m e]|]; try reflexivity.
  apply of_decimal_not_NaN.
Qed.

(** ** Single transitions *)

Lemma truthy_Some (op : Operation.t) : truthy (Some op) = true.
Proof. destruct op; reflexivity. Qed.

Lemma truthy_present (o : option Operation.t) : o <> None -> truthy o = true.
Proof. destruct o as [op|]; [ intros _; apply truthy_Some | congruence ]. Qed.

Lemma compute_unparsed executeOperation (s : CalculatorState) :
  isNaN (parseFloat (previousOperand s)) = true
  \/ isNaN (parseFloat (currentOperand s)) = true
  \/ operation s = None ->
  compute executeOperation s = s.
Proof.
  unfold compute. intros [H | [H | H]]; rewrite H.
  - reflexivity.
  - rewrite orb_true_r. reflexivity.
  - destruct (_ || _); reflexivity.
Qed.

Lemma compute_parsed executeOperation (s : CalculatorState) (op : Operation.t) :
  isNaN (parseFloat (previousOperand s)) = false ->
  isNaN (parseFloat (currentOperand s)) = false ->
  operation s = Some op ->
  compute executeOperation s
  = {| currentOperand :=
         toString (executeOperation op (parseFloat (previousOperand s))
                     (parseFloat (currentOperand s)));
       previousOperand := "";
       operation := None |}.
Proof.
  intros Hp Hc Ho. unfold compute. rewrite Hp, Hc, Ho. reflexivity.
Qed.

(** C3 (as the code has it): Compute returns the state it was given when
    [previousOperand] or [currentOperand] is empty or has no numeric prefix
    (after its leading white space and an optional sign it starts neither
    with Infinity nor with a decimal literal, which is exactly when
    [parseFloat] gives NaN), or when no operation is pending; in every
    other state it puts the stringified result of the evaluator in
    [currentOperand], empties [previousOperand] and removes the operation.
    An operand with a numeric prefix followed by other characters is
    computed with, on the value of its prefix. *)
Theorem compute_action_spec (s : CalculatorState) :
  (previousOperand s = "" \/ currentOperand s = ""
   \/ hasNumericPrefix (previousOperand s) = false
   \/ hasNumericPrefix (currentOperand s) = false
   \/ operation s = None ->
   Calculator.calculatorReducer s ComputeAction = s)
  /\ (forall op,
         hasNumericPrefix (previousOperand s) = true ->
         hasNumericPrefix (currentOperand s) = true ->
         operation s = Some op ->
         Calculator.calculatorReducer s ComputeAction
         = {| currentOperand :=
                toString (Calculator.executeOperation op
                            (parseFloat (previousOperand s))
                            (parseFloat (currentOperand s)));
              previousOperand := "";
              operation := None |})
  /\ (forall str, isNaN (parseFloat str) = negb (hasNumericPrefix str)).
Proof.
  split; [ | split ].
  - intros H. apply compute_unparsed.
    rewrite !parseFloat_NaN_iff.
    destruct H as [H | [H | [H | [H | H]]]].
    + left. rewrite H. reflexivity.
    + right; left. rewrite H. reflexivity.
    + left. rewrite H. reflexivity.
    + right; left. rewrite H. reflexivity.
    + right; right. exact H.
  - intros op Hp Hc Ho.
    apply compute_parsed; [ | | exact Ho ];
      rewrite parseFloat_NaN_iff; [ rewrite Hp | rewrite Hc ]; reflexivity.
  - apply parseFloat_NaN_iff.
Qed.

Lemma compute_action_spec_witness :
  Calculator.calculatorReducer
    {| currentOperand := ""; previousOperand := "6";
       operation := Some Operation.divide |} ComputeAction
  = {| currentOperand := ""; previousOperand := "6";
       operation := Some Operation.divide |}
  /\ Calculator.calculatorReducer
       {| currentOperand := "3"; previousOperand := "6";
          operation := Some Operation.divide |} ComputeAction
     = {| currentOperand := "2"; previousOperand := ""; operation := None |}.
Proof.
  split.
  - apply (proj1 (compute_action_spec _)). right; left. reflexivity.
  - apply (proj1 (proj2 (compute_action_spec
                           {| currentOperand := "3"; previousOperand := "6";
                              operation := Some Operation.divide |}))
             Operation.divide);
      vm_compute; reflexivity.
Defined.

Example numericString_samples :
  numericString "12" = true
  /\ numericString "12." = true
  /\ numericString "-.5e3" = true
  /\ numericString "Infinity" = true
  /\ numericString "" = false
  /\ numericString "NaN" = false
  /\ numericString "1e" = false
  /\ numericString " 12abc" = false
  /\ numericString "Infinity5" = false
  /\ hasNumericPrefix " 12abc" = true
  /\ hasNumericPrefix "Infinity5" = true.
Proof. repeat split; reflexivity. Qed.

Lemma numericString_hasNumericPrefix (s : string) :
  numericString s = true -> hasNumericPrefix s = true.
Proof.
  unfold numericString, hasNumericPrefix, afterLiteral,
    strUnsignedDecimalLiteral.
  destruct (prefix "Infinity" _); [ reflexivity | ].
  destruct (decimalDigits 0 0 _) as [[i ni] r1].
  destruct r1 as [|c r2].
  - destruct ni; [ discriminate | reflexivity ].
  - destruct c as [b0 b1 b2 b3 b4 b5 b6 b7].
    destruct b0, b1, b2, b3, b4, b5, b6, b7;
      try (destruct ni; [ discriminate | reflexivity ]).
    destruct (decimalDigits i 0 r2) as [[f nf] r3].
    destruct ni, nf; try reflexivity. discriminate.
Qed.

(** C3 as stated fails on operands that are not numeric but have a numeric
    prefix.  The keys 5, divide, 0, equals, 5, subtract, 1 lead to the
    previous operand Infinity5, which is not a numeric string; Compute
    does not return that state unchanged, it computes with Infinity. *)
Lemma compute_non_numeric_counterexample :
  ~ (previousOperand
       (Calculator.run DEFAULT_CALCULATOR_STATE
          [AppendNumberAction (of_Z 5); ChooseOperation Operation.divide;
           AppendNumberAction (of_Z 0); ComputeAction;
           AppendNumberAction (of_Z 5); ChooseOperation Operation.subtract;
           AppendNumberAction (of_Z 1)])
     = ""
     \/ numericString
          (previousOperand
             (Calculator.run DEFAULT_CALCULATOR_STATE
                [AppendNumberAction (of_Z 5);
                 ChooseOperation Operation.divide;
                 AppendNumberAction (of_Z 0); ComputeAction;
                 AppendNumberAction (of_Z 5);
                 ChooseOperation Operation.subtract;
                 AppendNumberAction (of_Z 1)]))
        = false ->
     Calculator.calculatorReducer
       (Calculator.run DEFAULT_CALCULATOR_STATE
          [AppendNumberAction (of_Z 5); ChooseOperation Operation.divide;
           AppendNumberAction (of_Z 0); ComputeAction;
           AppendNumberAction (of_Z 5); ChooseOperation Operation.subtract;
           AppendNumberAction (of_Z 1)])
       ComputeAction
     = Calculator.run DEFAULT_CALCULATOR_STATE
         [AppendNumberAction (of_Z 5); ChooseOperation Operation.divide;
          AppendNumberAction (of_Z 0); ComputeAction;
          AppendNumberAction (of_Z 5); ChooseOperation Operation.subtract;
          AppendNumberAction (of_Z 1)]).
Proof.
  intros H.
  assert (Hs : Calculator.run DEFAULT_CALCULATOR_STATE
                 [AppendNumberAction (of_Z 5);
                  ChooseOperation Operation.divide;
                  AppendNumberAction (of_Z 0); ComputeAction;
                  AppendNumberAction (of_Z 5);
                  ChooseOperation Operation.subtract;
                  AppendNumberAction (of_Z 1)]
               = {| currentOperand := "1"; previousOperand := "Infinity5";
                    operation := Some Operation.subtract |})
    by (vm_compute; reflexivity).
  rewrite Hs in H.
  assert (Hn : numericString "Infinity5" = false) by reflexivity.
  specialize (H (or_intror Hn)).
  vm_compute in H. discriminate H.
Qed.

(** C4: the chained operation.  From previous empty, current 5 and no
    operation, ChooseOperation(Add) gives previous 5, current empty, Add;
    AppendDigit(3) gives previous 5, current 3, Add; ChooseOperation(Subtract)
    then computes 5 + 3 and gives previous 8, current empty, Subtract. *)
Theorem chained_operation :
  let s0 :=
    {| currentOperand := "5"; previousOperand := ""; operation := None |} in
  let s1 := Calculator.calculatorReducer s0 (ChooseOperation Operation.add) in
  let s2 := Calculator.calculatorReducer s1 (AppendNumberAction (of_Z 3)) in
  let s3 :=
    Calculator.calculatorReducer s2 (ChooseOperation Operation.subtract) in
  s1 = {| currentOperand := ""; previousOperand := "5";
          operation := Some Operation.add |}
  /\ s2 = {| currentOperand := "3"; previousOperand := "5";
             operation := Some Operation.add |}
  /\ s3 = {| currentOperand := ""; previousOperand := "8";
             operation := Some Operation.subtract |}
  /\ Calculator.compute s2
     = {| currentOperand := "8"; previousOperand := ""; operation := None |}.
Proof.
  repeat split; vm_compute; reflexivity.
Qed.

(** C6: when an operation is pending and [currentOperand] does not parse
    (it is empty after two operator buttons in a row, say),
    ChooseOperation(op) moves the old [currentOperand] to [previousOperand],
    empties [currentOperand] and sets the operation to [op]: the old
    [previousOperand] is dropped and nothing is computed. *)
Theorem chooseOperation_unparsed_current
    (s : CalculatorState) (op : Operation.t) :
  operation s <> None ->
  isNaN (parseFloat (currentOperand s)) = true ->
  Calculator.calculatorReducer s (ChooseOperation op)
  = {| currentOperand := "";
       previousOperand := currentOperand s;
       operation := Some op |}.
Proof.
  intros Ho Hc.
  unfold Calculator.calculatorReducer, calculatorReducer.
  rewrite (truthy_present _ Ho).
  rewrite compute_unparsed by (right; left; exact Hc).
  reflexivity.
Qed.

Lemma chooseOperation_unparsed_current_witness :
  Calculator.calculatorReducer
    {| currentOperand := ""; previousOperand := "5";
       operation := Some Operation.add |}
    (ChooseOperation Operation.subtract)
  = {| currentOperand := ""; previousOperand := "";
       operation := Some Operation.subtract |}.
Proof.
  apply (chooseOperation_unparsed_current
           {| currentOperand := ""; previousOperand := "5";
              operation := Some Operation.add |} Operation.subtract).
  - simpl. discriminate.
  - reflexivity.
Defined.

(** C8: Clear returns the default state, whatever the state it is applied
    to: both operands empty and no operation. *)
Theorem clear_returns_default (s : CalculatorState) :
  Calculator.calculatorReducer s ClearAction = DEFAULT_CALCULATOR_STATE
  /\ DEFAULT_CALCULATOR_STATE
     = {| currentOperand := ""; previousOperand := ""; operation := None |}.
Proof. split; reflexivity. Qed.

(** C9: division by zero gives the IEEE special values and no error:
    [evaluate(Divide, 5, 0)] is positive infinity, [evaluate(Divide, 0, 0)]
    is NaN (every finite non-zero number divided by a zero is an infinity,
    every zero divided by a zero is NaN), and Compute writes them to
    [currentOperand] as the strings Infinity and NaN. *)
Theorem divide_by_zero :
  Calculator.executeOperation Operation.divide (of_Z 5) (of_Z 0) = Infinity
  /\ Calculator.executeOperation Operation.divide (of_Z 0) (of_Z 0) = NaN
  /\ (forall (sx : bool) (m : positive) (e : Z) (sy : bool),
         Calculator.executeOperation Operation.divide
           (S754_finite sx m e) (S754_zero sy)
         = S754_infinity (xorb sx sy))
  /\ (forall sx sy : bool,
         Calculator.executeOperation Operation.divide
           (S754_zero sx) (S754_zero sy)
         = NaN)
  /\ toString Infinity = "Infinity"
  /\ toString (S754_infinity true) = "-Infinity"
  /\ toString NaN = "NaN"
  /\ Calculator.calculatorReducer
       {| currentOperand := "0"; previousOperand := "5";
          operation := Some Operation.divide |} ComputeAction
     = {| currentOperand := "Infinity"; previousOperand := "";
          operation := None |}
  /\ Calculator.calculatorReducer
       {| currentOperand := "0"; previousOperand := "0";
          operation := Some Operation.divide |} ComputeAction
     = {| currentOperand := "NaN"; previousOperand := ""; operation := None |}.
Proof.
  repeat split; vm_compute; reflexivity.
Qed.

(** ** Decimal points in strings *)

Lemma countPoints_app (s t : string) :
  countPoints (s ++ t) = (countPoints s + countPoints t)%nat.
Proof.
  induction s as [|c s IH]; simpl; [ reflexivity | ].
  rewrite IH. apply Nat.add_assoc.
Qed.

Lemma countPoints_substring (s : string) :
  forall n m, (countPoints (substring n m s) <= countPoints s)%nat.
Proof.
  induction s as [|c s IH]; intros n m.
  - destruct n, m; simpl; lia.
  - destruct n as [|n].
    + destruct m as [|m]; simpl; [ lia | ].
      specialize (IH 0%nat m). lia.
    + simpl. specialize (IH n m). lia.
Qed.

Lemma countPoints_zeros (n : nat) : countPoints (zeros n) = 0%nat.
Proof. induction n; simpl; auto. Qed.

Lemma countPoints_uint (u : Decimal.uint) :
  countPoints (NilEmpty.string_of_uint u) = 0%nat.
Proof. induction u; simpl; auto. Qed.

Lemma countPoints_decimalString (z : Z) : countPoints (decimalString z) = 0%nat.
Proof. apply countPoints_uint. Qed.

Lemma countPoints_digits_substring (z : Z) (n m : nat) :
  countPoints (substring n m (decimalString z)) = 0%nat.
Proof.
  pose proof (countPoints_substring (decimalString z) n m) as H.
  rewrite countPoints_decimalString in H. lia.
Qed.

Lemma countPoints_formatDigits (n k s : Z) :
  (countPoints (formatDigits n k s) <= 1)%nat.
Proof.
  unfold formatDigits.
  destruct ((-5 <=? n) && (n <=? 21)).
  - destruct (k <=? n); [ | destruct (0 <? n) ].
    + rewrite countPoints_app, countPoints_decimalString, countPoints_zeros.
      lia.
    + rewrite !countPoints_app, !countPoints_digits_substring. simpl. lia.
    + rewrite !countPoints_app, countPoints_decimalString, countPoints_zeros.
      simpl. lia.
  - destruct (k =? 1).
    + rewrite !countPoints_app, !countPoints_decimalString.
      destruct (n <? 0); simpl; lia.
    + rewrite !countPoints_app, !countPoints_digits_substring,
        countPoints_decimalString.
      destruct (n <? 0); simpl; lia.
Qed.

(** A number turns into a string with at most one decimal point. *)
Lemma countPoints_toString (x : number) : (countPoints (toString x) <= 1)%nat.
Proof.
  destruct x as [s | s | | s m e]; simpl.
  - lia.
  - destruct s; simpl; lia.
  - lia.
  - destruct (digitsOf m e) as [[n k] d].
    rewrite countPoints_app.
    pose proof (countPoints_formatDigits n k d).
    destruct s; simpl; lia.
Qed.

Lemma includes_cons (c : ascii) (s : string) :
  includes (String c s) "."
  = (if ascii_dec "." c then true else false) || includes s ".".
Proof.
  cbn [includes prefix].
  destruct (ascii_dec "." c); [ destruct s | ]; reflexivity.
Qed.

Lemma includes_point (s : string) :
  includes s "." = false -> countPoints s = 0%nat.
Proof.
  induction s as [|c s IH]; [ reflexivity | ].
  rewrite includes_cons. cbn [countPoints].
  destruct (ascii_dec "." c) as [<- | Hne]; [ discriminate | ].
  intros H. rewrite (IH H).
  destruct (Ascii.eqb_spec c "."); [ congruence | reflexivity ].
Qed.

Lemma number_eqb_eq (x y : number) : JSNumber.eqb x y = true -> x = y.
Proof.
  destruct x, y; simpl; try discriminate; intros H.
  - apply eqb_prop in H. congruence.
  - apply eqb_prop in H. congruence.
  - reflexivity.
  - apply andb_prop in H. destruct H as [H He].
    apply andb_prop in H. destruct H as [Hs Hm].
    apply eqb_prop in Hs. apply Pos.eqb_eq in Hm. apply Z.eqb_eq in He.
    congruence.
Qed.

Lemma singleDigit_toString (d : number) :
  singleDigit d = true -> countPoints (toString d) = 0%nat.
Proof.
  unfold singleDigit. intros H.
  apply existsb_exists in H. destruct H as [z [Hz Hd]].
  apply number_eqb_eq in Hd. subst d.
  simpl in Hz.
  repeat (destruct Hz as [<- | Hz]; [ vm_compute; reflexivity | ]).
  contradiction.
Qed.

Lemma countPoints_slice (s : string) (start end_ : Z) :
  (countPoints (slice s start end_) <= countPoints s)%nat.
Proof. unfold slice. apply countPoints_substring. Qed.

(** ** States reached by sequences of actions *)

Section Invariants.

Variable executeOperation : Operation.t -> number -> number -> number.

(** A property of states that every permitted action preserves holds
    after every sequence of permitted actions. *)
Lemma run_preserves
    (P : CalculatorState -> Prop) (permitted : CalculatorAction -> bool) :
  (forall s a,
      P s -> permitted a = true ->
      P (calculatorReducer executeOperation s a)) ->
  forall actions s,
    P s -> forallb permitted actions = true ->
    P (run executeOperation s actions).
Proof.
  intros Hstep actions.
  induction actions as [|a actions IH]; intros s Hs Hall; simpl in *.
  - exact Hs.
  - apply andb_prop in Hall. destruct Hall as [Ha Hall].
    apply IH; [ apply Hstep; assumption | exact Hall ].
Qed.

Lemma compute_cases (s : CalculatorState) :
  compute executeOperation s = s
  \/ exists r,
      compute executeOperation s
      = {| currentOperand := toString r;
           previousOperand := "";
           operation := None |}.
Proof.
  unfold compute.
  destruct (_ || _); [ left; reflexivity | ].
  destruct (operation s) as [op|]; [ right; eexists; reflexivity | ].
  left; reflexivity.
Qed.

Lemma previousHasOperation_step (s : CalculatorState) (a : CalculatorAction) :
  previousHasOperation s ->
  previousHasOperation (calculatorReducer executeOperation s a).
Proof.
  unfold previousHasOperation. intros Hs.
  destruct a as [d | | | op | | ]; cbn [calculatorReducer];
    try exact Hs.
  - cbn. discriminate.
  - destruct (compute_cases s) as [-> | [r ->]]; [ exact Hs | ].
    cbn. congruence.
  - cbn. congruence.
Qed.

Lemma onePoint_compute (s : CalculatorState) :
  onePoint s -> onePoint (compute executeOperation s).
Proof.
  intros Hs. destruct (compute_cases s) as [-> | [r ->]]; [ exact Hs | ].
  unfold onePoint. cbn. apply countPoints_toString.
Qed.

Lemma onePoint_step (s : CalculatorState) (a : CalculatorAction) :
  onePoint s -> digitPayload a = true ->
  onePoint (calculatorReducer executeOperation s a).
Proof.
  intros Hs Ha.
  destruct a as [d | | | op | | ]; cbn [calculatorReducer].
  - unfold onePoint in *. cbn [currentOperand].
    rewrite countPoints_app, (singleDigit_toString d Ha). lia.
  - unfold onePoint in *. cbn [currentOperand].
    pose proof (countPoints_slice (currentOperand s) 0 (-1)). lia.
  - unfold onePoint in *. cbn [currentOperand].
    destruct (includes (currentOperand s) ".") eqn:Hi; [ exact Hs | ].
    rewrite countPoints_app, (includes_point _ Hi). simpl. lia.
  - unfold onePoint. cbn. lia.
  - apply onePoint_compute, Hs.
  - unfold onePoint. cbn. lia.
Qed.

Lemma addDecimalPoint_twice (s : CalculatorState) :
  calculatorReducer executeOperation
    (calculatorReducer executeOperation s AddDecimalPointAction)
    AddDecimalPointAction
  = calculatorReducer executeOperation s AddDecimalPointAction.
Proof.
  cbn [calculatorReducer currentOperand previousOperand operation].
  destruct (includes (currentOperand s) ".") eqn:Hi.
  - rewrite Hi. reflexivity.
  - replace (includes (currentOperand s ++ ".") ".") with true;
      [ reflexivity | ].
    symmetry. induction (currentOperand s) as [|c r IH].
    + reflexivity.
    + rewrite includes_cons in Hi.
      apply orb_false_elim in Hi. destruct Hi as [Hc Hr].
      change (String c r ++ ".") with (String c (r ++ ".")).
      rewrite includes_cons, (IH Hr). apply orb_true_r.
Qed.

End Invariants.

(** C5 (as the code has it): in every state reached from the default state
    by a sequence of actions, a non-empty [previousOperand] comes with a
    pending operation.  The converse is not maintained: choosing an
    operation while [currentOperand] is empty leaves the operation pending
    on an empty [previousOperand]. *)
Theorem previous_operand_has_operation (actions : list CalculatorAction) :
  previousOperand (Calculator.run DEFAULT_CALCULATOR_STATE actions) <> "" ->
  operation (Calculator.run DEFAULT_CALCULATOR_STATE actions) <> None.
Proof.
  apply (run_preserves Calculator.executeOperation
           previousHasOperation (fun _ => true)).
  - intros s a Hs _. apply previousHasOperation_step, Hs.
  - intros H. contradiction H. reflexivity.
  - induction actions; simpl; auto.
Qed.

Lemma previous_operand_has_operation_witness :
  operation
    (Calculator.run DEFAULT_CALCULATOR_STATE
       [AppendNumberAction (of_Z 5); ChooseOperation Operation.add])
  <> None.
Proof.
  apply (previous_operand_has_operation
           [AppendNumberAction (of_Z 5); ChooseOperation Operation.add]).
  vm_compute. discriminate.
Defined.

(** C5 as stated fails: after ChooseOperation(Add) on the default state the
    operation is present and [previousOperand] is empty. *)
Lemma operation_iff_previous_counterexample :
  ~ (operation
       (Calculator.run DEFAULT_CALCULATOR_STATE [ChooseOperation Operation.add])
     <> None
     <-> previousOperand
           (Calculator.run DEFAULT_CALCULATOR_STATE
              [ChooseOperation Operation.add])
         <> "").
Proof.
  intros [H _]. apply H; [ discriminate | reflexivity ].
Qed.

(** C7: in every state reached from the default state by actions whose
    AppendDigit payloads are the digits 0 to 9, [currentOperand] holds at
    most one decimal point.  AddDecimalPoint appends the point only when
    [currentOperand] has none, so a second AddDecimalPoint changes
    nothing. *)
Theorem current_operand_one_point :
  (forall actions : list CalculatorAction,
      forallb digitPayload actions = true ->
      (countPoints
         (currentOperand (Calculator.run DEFAULT_CALCULATOR_STATE actions))
       <= 1)%nat)
  /\ (forall s : CalculatorState,
         currentOperand (Calculator.calculatorReducer s AddDecimalPointAction)
         = if includes (currentOperand s) "." then currentOperand s
           else currentOperand s ++ ".")
  /\ (forall s : CalculatorState,
         Calculator.calculatorReducer
           (Calculator.calculatorReducer s AddDecimalPointAction)
           AddDecimalPointAction
         = Calculator.calculatorReducer s AddDecimalPointAction)
  /\ currentOperand
       (Calculator.run DEFAULT_CALCULATOR_STATE
          [AppendNumberAction (of_Z 1); AppendNumberAction (of_Z 2);
           AddDecimalPointAction; AddDecimalPointAction])
     = "12.".
Proof.
  split; [ | split; [ | split ] ].
  - intros actions Hall.
    apply (run_preserves Calculator.executeOperation onePoint digitPayload).
    + intros s a. apply onePoint_step.
    + unfold onePoint. simpl. lia.
    + exact Hall.
  - intros s. reflexivity.
  - intros s. apply addDecimalPoint_twice.
  - vm_compute. reflexivity.
Qed.

Lemma current_operand_one_point_witness :
  (countPoints
     (currentOperand
        (Calculator.run DEFAULT_CALCULATOR_STATE
           [AppendNumberAction (of_Z 7); AddDecimalPointAction;
            AppendNumberAction (of_Z 5); AddDecimalPointAction;
            ChooseOperation Operation.multiply; AppendNumberAction (of_Z 3);
            AddDecimalPointAction; ComputeAction; AddDecimalPointAction]))
   <= 1)%nat.
Proof.
  apply (proj1 current_operand_one_point
           [AppendNumberAction (of_Z 7); AddDecimalPointAction;
            AppendNumberAction (of_Z 5); AddDecimalPointAction;
            ChooseOperation Operation.multiply; AppendNumberAction (of_Z 3);
            AddDecimalPointAction; ComputeAction; AddDecimalPointAction]).
  vm_compute. reflexivity.
Defined.

(** ** Totality of the dispatch *)

Lemma runtime_executeOperation (op : Operation.t) (a b : number) :
  Runtime.executeOperation (Operation.value op) a b
  = Some (Calculator.executeOperation op a b).
Proof. destruct op; reflexivity. Qed.

Lemma runtime_truthy (o : option Operation.t) :
  Runtime.truthy (option_map Operation.value o) = truthy o.
Proof. destruct o; reflexivity. Qed.

Lemma runtime_compute (s : CalculatorState) :
  Runtime.compute (Runtime.stateObject s)
  = Runtime.Returns (Runtime.stateObject (Calculator.compute s)).
Proof.
  unfold Runtime.compute, Calculator.compute, compute.
  cbn [Runtime.stateObject Runtime.state_currentOperand
       Runtime.state_previousOperand Runtime.state_operation].
  destruct (_ || _); [ reflexivity | ].
  destruct (operation s) as [op|]; cbn [option_map]; [ | reflexivity ].
  rewrite runtime_executeOperation. reflexivity.
Qed.

(** C10: for every state and every action of the [CalculatorAction] union
    the reducer returns a state: no [case] is missing in the dispatch on the
    action tag or in the evaluator's dispatch on the operation, so the
    function neither falls through to [undefined] nor throws, and the state
    it returns is the one of the typed reducer. *)
Theorem calculatorReducer_total (s : CalculatorState) (a : CalculatorAction) :
  Runtime.calculatorReducer (Runtime.stateObject s) (Runtime.actionObject a)
  = Runtime.Returns (Runtime.stateObject (Calculator.calculatorReducer s a)).
Proof.
  destruct a as [d | | | op | | ];
    unfold Runtime.calculatorReducer;
    cbn [Runtime.actionObject Runtime.action_type Runtime.action_digit
         Runtime.action_operation String.eqb Ascii.eqb Bool.eqb];
    try reflexivity.
  - cbn [Runtime.stateObject Runtime.state_operation].
    rewrite runtime_truthy.
    unfold Calculator.calculatorReducer, calculatorReducer.
    destruct (truthy (operation s)); [ | reflexivity ].
    change (Runtime.compute
              {| Runtime.state_currentOperand := currentOperand s;
                 Runtime.state_previousOperand := previousOperand s;
                 Runtime.state_operation :=
                   option_map Operation.value (operation s) |})
      with (Runtime.compute (Runtime.stateObject s)).
    rewrite runtime_compute. reflexivity.
  - apply runtime_compute.
Qed.

(** * Further properties of the reducer *)

(** ** Strings: concatenation, prefixes and [slice] *)

Lemma append_assoc (a b c : string) : (a ++ b) ++ c = a ++ (b ++ c).
Proof. induction a as [|x a IH]; simpl; [ reflexivity | now rewrite IH ]. Qed.

Lemma append_empty_r (s : string) : s ++ "" = s.
Proof. induction s as [|x s IH]; simpl; [ reflexivity | now rewrite IH ]. Qed.

Lemma length_append (a b : string) :
  String.length (a ++ b) = (String.length a + String.length b)%nat.
Proof. induction a as [|x a IH]; simpl; [ reflexivity | now rewrite IH ]. Qed.

Lemma substring_0_append (r t : string) :
  substring 0 (String.length r) (r ++ t) = r.
Proof.
  induction r as [|x r IH]; simpl.
  - destruct t; reflexivity.
  - now rewrite IH.
Qed.

Lemma substring_0_empty (s : string) : substring 0 0 s = "".
Proof. destruct s; reflexivity. Qed.

Lemma length_substring_0 (s : string) :
  forall m, (m <= String.length s)%nat ->
            String.length (substring 0 m s) = m.
Proof.
  induction s as [|x s IH]; intros m Hm; simpl in Hm.
  - replace m with 0%nat by lia. reflexivity.
  - destruct m as [|m]; simpl; [ reflexivity | ].
    rewrite IH by lia. reflexivity.
Qed.

Lemma substring_0_twice (s : string) :
  forall m k, substring 0 m (substring 0 k s) = substring 0 (Nat.min m k) s.
Proof.
  induction s as [|x s IH]; intros m k.
  - destruct m, k; reflexivity.
  - destruct k as [|k].
    + rewrite Nat.min_0_r. simpl. destruct m; reflexivity.
    + destruct m as [|m]; simpl; [ reflexivity | ].
      now rewrite IH.
Qed.

(** [slice(0, -1)] keeps all the characters but the last one. *)
Lemma slice_0_m1 (s : string) :
  slice s 0 (-1) = substring 0 (String.length s - 1) s.
Proof.
  unfold slice.
  change (0 <? 0) with false. change (-1 <? 0) with true.
  cbv beta iota zeta.
  replace (Z.to_nat (Z.min 0 (Z.of_nat (String.length s)))) with 0%nat by lia.
  f_equal. lia.
Qed.

Lemma slice_last (r : string) (c : ascii) :
  slice (r ++ String c "") 0 (-1) = r.
Proof.
  rewrite slice_0_m1, length_append. simpl String.length.
  replace (String.length r + 1 - 1)%nat with (String.length r) by lia.
  apply substring_0_append.
Qed.

Lemma singleDigit_char (d : number) :
  singleDigit d = true ->
  exists c, toString d = String c "" /\ isDecimalDigit c = true.
Proof.
  unfold singleDigit. intros H.
  apply existsb_exists in H. destruct H as [z [Hz Hd]].
  apply number_eqb_eq in Hd. subst d.
  simpl in Hz.
  repeat (destruct Hz as [<- | Hz];
          [ eexists; split; vm_compute; reflexivity | ]).
  contradiction.
Qed.

(** ** Editing the current operand *)

Lemma run_cons executeOperation (s : CalculatorState)
    (a : CalculatorAction) (l : list CalculatorAction) :
  run executeOperation s (a :: l)
  = run executeOperation (calculatorReducer executeOperation s a) l.
Proof. reflexivity. Qed.

(** X1: digits entered one after the other are concatenated to
    [currentOperand] in the order of entry, and nothing else changes. *)
Theorem append_numbers_concatenate
    (s : CalculatorState) (digits : list number) :
  Calculator.run s (map AppendNumberAction digits)
  = {| currentOperand := currentOperand s ++ joined (map toString digits);
       previousOperand := previousOperand s;
       operation := operation s |}.
Proof.
  unfold Calculator.run. revert s.
  induction digits as [|d digits IH]; intros s.
  - simpl. rewrite append_empty_r. destruct s; reflexivity.
  - cbn [map]. rewrite run_cons, IH.
    cbn [calculatorReducer currentOperand previousOperand operation joined].
    rewrite append_assoc. reflexivity.
Qed.

Lemma run_deletes executeOperation (n : nat) :
  forall s,
    run executeOperation s (repeat DeleteDigitAction n)
    = {| currentOperand :=
           substring 0 (String.length (currentOperand s) - n)
             (currentOperand s);
         previousOperand := previousOperand s;
         operation := operation s |}.
Proof.
  induction n as [|n IH]; intros s.
  - simpl. rewrite Nat.sub_0_r.
    pose proof (substring_0_append (currentOperand s) "") as H.
    rewrite append_empty_r in H. rewrite H. destruct s; reflexivity.
  - cbn [repeat]. rewrite run_cons, IH.
    cbn [calculatorReducer currentOperand previousOperand operation].
    rewrite slice_0_m1, substring_0_twice.
    rewrite length_substring_0 by lia.
    f_equal. f_equal. lia.
Qed.

(** X2: [n] DeleteDigit actions leave the first [length - n] characters of
    [currentOperand] and touch nothing else; as soon as [n] reaches the
    length the operand is empty and stays empty, so deleting on an empty
    operand changes nothing; one DeleteDigit removes exactly the last
    character. *)
Theorem delete_digits (s : CalculatorState) (n : nat) :
  Calculator.run s (repeat DeleteDigitAction n)
  = {| currentOperand :=
         substring 0 (String.length (currentOperand s) - n)
           (currentOperand s);
       previousOperand := previousOperand s;
       operation := operation s |}
  /\ ((String.length (currentOperand s) <= n)%nat ->
      currentOperand (Calculator.run s (repeat DeleteDigitAction n)) = "")
  /\ (forall r c,
         currentOperand s = r ++ String c "" ->
         currentOperand (Calculator.calculatorReducer s DeleteDigitAction)
         = r).
Proof.
  unfold Calculator.run, Calculator.calculatorReducer.
  rewrite run_deletes. repeat split.
  - intros Hn. cbn [currentOperand].
    replace (String.length (currentOperand s) - n)%nat with 0%nat by lia.
    apply substring_0_empty.
  - intros r c Hs. cbn [calculatorReducer currentOperand].
    rewrite Hs. apply slice_last.
Qed.

Lemma delete_digits_witness :
  currentOperand
    (Calculator.run
       {| currentOperand := "12"; previousOperand := "7";
          operation := Some Operation.add |}
       (repeat DeleteDigitAction 3))
  = ""
  /\ currentOperand
       (Calculator.calculatorReducer
          {| currentOperand := "12"; previousOperand := "7";
             operation := Some Operation.add |} DeleteDigitAction)
     = "1".
Proof.
  split.
  - apply (proj1 (proj2 (delete_digits _ 3))). simpl. lia.
  - apply (proj2 (proj2 (delete_digits
                           {| currentOperand := "12"; previousOperand := "7";
                              operation := Some Operation.add |} 1))
             "1" "2"%char).
    reflexivity.
Defined.

(** X3: DeleteDigit undoes the entry of a digit: after AppendDigit of one
    of the digits 0 to 9, DeleteDigit gives back the state before the
    entry. *)
Theorem delete_undoes_append (s : CalculatorState) (d : number) :
  singleDigit d = true ->
  Calculator.calculatorReducer
    (Calculator.calculatorReducer s (AppendNumberAction d)) DeleteDigitAction
  = s.
Proof.
  intros Hd. destruct (singleDigit_char d Hd) as [c [Hc _]].
  unfold Calculator.calculatorReducer.
  cbn [calculatorReducer currentOperand previousOperand operation].
  rewrite Hc, slice_last. destruct s; reflexivity.
Qed.

Lemma delete_undoes_append_witness :
  Calculator.calculatorReducer
    (Calculator.calculatorReducer
       {| currentOperand := "4"; previousOperand := "";
          operation := None |} (AppendNumberAction (of_Z 2)))
    DeleteDigitAction
  = {| currentOperand := "4"; previousOperand := ""; operation := None |}.
Proof.
  apply (delete_undoes_append
           {| currentOperand := "4"; previousOperand := "";
              operation := None |} (of_Z 2)).
  vm_compute. reflexivity.
Defined.

(** X4: on an operand without a decimal point, DeleteDigit undoes
    AddDecimalPoint; on an operand that has one, AddDecimalPoint changes
    nothing, so that DeleteDigit after it removes a character that was
    there before. *)
Theorem delete_after_decimal_point (s : CalculatorState) :
  (includes (currentOperand s) "." = false ->
   Calculator.calculatorReducer
     (Calculator.calculatorReducer s AddDecimalPointAction) DeleteDigitAction
   = s)
  /\ (includes (currentOperand s) "." = true ->
      Calculator.calculatorReducer s AddDecimalPointAction = s).
Proof.
  unfold Calculator.calculatorReducer.
  cbn [calculatorReducer currentOperand previousOperand operation].
  split; intros Hi; rewrite Hi.
  - rewrite slice_last. destruct s; reflexivity.
  - destruct s; reflexivity.
Qed.

Lemma delete_after_decimal_point_witness :
  Calculator.calculatorReducer
    (Calculator.calculatorReducer
       {| currentOperand := "12"; previousOperand := "";
          operation := None |} AddDecimalPointAction)
    DeleteDigitAction
  = {| currentOperand := "12"; previousOperand := ""; operation := None |}
  /\ Calculator.calculatorReducer
       {| currentOperand := "1.2"; previousOperand := "";
          operation := None |} AddDecimalPointAction
     = {| currentOperand := "1.2"; previousOperand := "";
          operation := None |}.
Proof.
  split.
  - apply (proj1 (delete_after_decimal_point
                    {| currentOperand := "12"; previousOperand := "";
                       operation := None |})).
    reflexivity.
  - apply (proj2 (delete_after_decimal_point
                    {| currentOperand := "1.2"; previousOperand := "";
                       operation := None |})).
    reflexivity.
Defined.

(** ** Choosing an operation and computing *)

Lemma chooseOperation_pending executeOperation
    (s : CalculatorState) (op : Operation.t) :
  operation s <> None ->
  calculatorReducer executeOperation s (ChooseOperation op)
  = {| currentOperand := "";
       previousOperand := currentOperand (compute executeOperation s);
       operation := Some op |}.
Proof.
  intros Ho. cbn [calculatorReducer].
  rewrite (truthy_present _ Ho). reflexivity.
Qed.

(** X5: the chained operation in general.  When an operation is pending
    and both operands parse, ChooseOperation evaluates the pending
    operation on them, stores the stringified result in [previousOperand],
    empties [currentOperand] and makes the chosen operation the pending
    one. *)
Theorem chooseOperation_folds
    (s : CalculatorState) (pending chosen : Operation.t) :
  operation s = Some pending ->
  isNaN (parseFloat (previousOperand s)) = false ->
  isNaN (parseFloat (currentOperand s)) = false ->
  Calculator.calculatorReducer s (ChooseOperation chosen)
  = {| currentOperand := "";
       previousOperand :=
         toString (Calculator.executeOperation pending
                     (parseFloat (previousOperand s))
                     (parseFloat (currentOperand s)));
       operation := Some chosen |}.
Proof.
  intros Ho Hp Hc. unfold Calculator.calculatorReducer.
  rewrite chooseOperation_pending by congruence.
  rewrite (compute_parsed _ s pending Hp Hc Ho). reflexivity.
Qed.

Lemma chooseOperation_folds_witness :
  Calculator.calculatorReducer
    {| currentOperand := "4"; previousOperand := "2.5";
       operation := Some Operation.multiply |}
    (ChooseOperation Operation.add)
  = {| currentOperand := ""; previousOperand := "10";
       operation := Some Operation.add |}.
Proof.
  apply (chooseOperation_folds
           {| currentOperand := "4"; previousOperand := "2.5";
              operation := Some Operation.multiply |}
           Operation.multiply Operation.add);
    vm_compute; reflexivity.
Defined.

(** X6: two operations chosen in a row lose the operand.  Whatever the
    state, after ChooseOperation and ChooseOperation again both operands are
    empty and the second operation is pending: the value that the first
    ChooseOperation had moved to [previousOperand] is gone. *)
Theorem chooseOperation_twice
    (s : CalculatorState) (first second : Operation.t) :
  Calculator.calculatorReducer
    (Calculator.calculatorReducer s (ChooseOperation first))
    (ChooseOperation second)
  = {| currentOperand := ""; previousOperand := "";
       operation := Some second |}.
Proof.
  unfold Calculator.calculatorReducer.
  rewrite (chooseOperation_pending _ _ second).
  - rewrite compute_unparsed; [ reflexivity | ].
    right; left. reflexivity.
  - cbn [calculatorReducer operation]. discriminate.
Qed.

Lemma compute_twice executeOperation (s : CalculatorState) :
  compute executeOperation (compute executeOperation s)
  = compute executeOperation s.
Proof.
  destruct (compute_cases executeOperation s) as [H | [r H]]; rewrite H.
  - exact H.
  - apply compute_unparsed. right; right. reflexivity.
Qed.

(** X7: Compute is idempotent, in both copies of the reducer: a second
    Compute right after a Compute changes nothing, because a computation
    that took place leaves no pending operation. *)
Theorem compute_idempotent (s : CalculatorState) :
  Calculator.calculatorReducer
    (Calculator.calculatorReducer s ComputeAction) ComputeAction
  = Calculator.calculatorReducer s ComputeAction
  /\ Duplicate.calculatorReducer
       (Duplicate.calculatorReducer s ComputeAction) ComputeAction
     = Duplicate.calculatorReducer s ComputeAction.
Proof.
  split; apply compute_twice.
Qed.

Lemma typing_keeps_previous executeOperation
    (actions : list CalculatorAction) :
  forallb typing actions = true ->
  forall s,
    previousOperand (run executeOperation s actions) = previousOperand s
    /\ operation (run executeOperation s actions) = operation s.
Proof.
  induction actions as [|a actions IH]; intros Hall s.
  - split; reflexivity.
  - cbn [forallb] in Hall. apply andb_prop in Hall.
    destruct Hall as [Ha Hall].
    rewrite run_cons.
    destruct (IH Hall (calculatorReducer executeOperation s a)) as [Hp Ho].
    rewrite Hp, Ho.
    destruct a; try discriminate Ha; split; reflexivity.
Qed.

(** X8: typing cannot repair a previous operand that does not parse.  When
    [previousOperand] does not parse (it is empty because the operation was
    chosen on an empty display, or it is the string NaN), then after any
    sequence of AppendDigit, DeleteDigit and AddDecimalPoint actions
    Compute still returns the state unchanged, and [previousOperand] and
    the operation are what they were. *)
Theorem typing_cannot_repair_previous
    (s : CalculatorState) (actions : list CalculatorAction) :
  isNaN (parseFloat (previousOperand s)) = true ->
  forallb typing actions = true ->
  Calculator.calculatorReducer (Calculator.run s actions) ComputeAction
  = Calculator.run s actions
  /\ previousOperand (Calculator.run s actions) = previousOperand s
  /\ operation (Calculator.run s actions) = operation s.
Proof.
  intros Hp Hall. unfold Calculator.run, Calculator.calculatorReducer.
  destruct (typing_keeps_previous Calculator.executeOperation actions Hall s)
    as [Hprev Hop].
  split; [ | split; assumption ].
  apply compute_unparsed. left. rewrite Hprev. exact Hp.
Qed.

Lemma typing_cannot_repair_previous_witness :
  Calculator.calculatorReducer
    (Calculator.run
       {| currentOperand := ""; previousOperand := "";
          operation := Some Operation.add |}
       [AppendNumberAction (of_Z 5); AddDecimalPointAction;
        AppendNumberAction (of_Z 2)])
    ComputeAction
  = Calculator.run
      {| currentOperand := ""; previousOperand := "";
         operation := Some Operation.add |}
      [AppendNumberAction (of_Z 5); AddDecimalPointAction;
       AppendNumberAction (of_Z 2)].
Proof.
  apply (proj1 (typing_cannot_repair_previous
                  {| currentOperand := ""; previousOperand := "";
                     operation := Some Operation.add |}
                  [AppendNumberAction (of_Z 5); AddDecimalPointAction;
                   AppendNumberAction (of_Z 2)]
                  eq_refl eq_refl)).
Defined.

(** ** The evaluator and operand order *)

Lemma SFadd_comm (a b : number) : JSNumber.add a b = JSNumber.add b a.
Proof.
  unfold JSNumber.add.
  destruct a as [sa | sa | | sa ma ea], b as [sb | sb | | sb mb eb];
    try reflexivity;
    try (destruct sa, sb; reflexivity).
  simpl. rewrite (Z.min_comm ea eb), Z.add_comm. reflexivity.
Qed.

Lemma SFmul_comm (a b : number) : JSNumber.mul a b = JSNumber.mul b a.
Proof.
  unfold JSNumber.mul.
  destruct a as [sa | sa | | sa ma ea], b as [sb | sb | | sb mb eb];
    try reflexivity;
    try (destruct sa, sb; reflexivity).
  simpl. rewrite (xorb_comm sa sb), (Pos.mul_comm ma mb), (Z.add_comm ea eb).
  reflexivity.
Qed.

(** X9: the order of the operands matters for Subtract and Divide only.
    Add and Multiply give the same number when the operands are exchanged,
    for all numbers, the special values included; Subtract and Divide do
    not, as 10 and 4 show. *)
Theorem operand_order :
  (forall a b : number,
      Calculator.executeOperation Operation.add a b
      = Calculator.executeOperation Operation.add b a)
  /\ (forall a b : number,
         Calculator.executeOperation Operation.multiply a b
         = Calculator.executeOperation Operation.multiply b a)
  /\ Calculator.executeOperation Operation.subtract (of_Z 10) (of_Z 4)
     <> Calculator.executeOperation Operation.subtract (of_Z 4) (of_Z 10)
  /\ Calculator.executeOperation Operation.divide (of_Z 10) (of_Z 4)
     <> Calculator.executeOperation Operation.divide (of_Z 4) (of_Z 10).
Proof.
  split; [ intros a b; apply SFadd_comm | ].
  split; [ intros a b; apply SFmul_comm | ].
  split; vm_compute; discriminate.
Qed.

(** ** The second copy of the reducer *)

Lemma swapOperation_involutive (op : Operation.t) :
  swapOperation (swapOperation op) = op.
Proof. destruct op; reflexivity. Qed.

Lemma swapState_involutive (s : CalculatorState) :
  swapState (swapState s) = s.
Proof.
  destruct s as [c p [op|]]; unfold swapState; simpl;
    [ rewrite swapOperation_involutive | ]; reflexivity.
Qed.

Lemma duplicate_executeOperation (op : Operation.t) (a b : number) :
  Duplicate.executeOperation op a b
  = Calculator.executeOperation (swapOperation op) a b.
Proof. destruct op; reflexivity. Qed.

Lemma duplicate_compute (s : CalculatorState) :
  Duplicate.compute s = swapState (Calculator.compute (swapState s)).
Proof.
  unfold Duplicate.compute, Calculator.compute, compute.
  cbn [swapState currentOperand previousOperand operation].
  destruct (_ || _); [ symmetry; apply swapState_involutive | ].
  destruct (operation s) as [op|] eqn:Ho; cbn [option_map].
  - rewrite duplicate_executeOperation. reflexivity.
  - destruct s as [c p o]. simpl in Ho. subst o. reflexivity.
Qed.

Lemma truthy_swap (o : option Operation.t) :
  truthy (option_map swapOperation o) = truthy o.
Proof. destruct o as [[ | | | ]|]; reflexivity. Qed.

Lemma duplicate_reducer (s : CalculatorState) (a : CalculatorAction) :
  Duplicate.calculatorReducer s a
  = swapState (Calculator.calculatorReducer (swapState s) (swapAction a)).
Proof.
  unfold Duplicate.calculatorReducer, Calculator.calculatorReducer.
  destruct a as [d | | | op | | ];
    cbn [swapAction calculatorReducer].
  - destruct s as [c p [o|]]; unfold swapState; simpl;
      [ rewrite swapOperation_involutive | ]; reflexivity.
  - destruct s as [c p [o|]]; unfold swapState; simpl;
      [ rewrite swapOperation_involutive | ]; reflexivity.
  - destruct s as [c p [o|]]; unfold swapState; simpl;
      [ rewrite swapOperation_involutive | ]; reflexivity.
  - change (operation (swapState s))
      with (option_map swapOperation (operation s)).
    rewrite truthy_swap.
    destruct (truthy (operation s)).
    + change (compute Duplicate.executeOperation s)
        with (Duplicate.compute s).
      rewrite duplicate_compute.
      unfold swapState at 1 3.
      cbn [currentOperand previousOperand operation option_map].
      rewrite swapOperation_involutive. reflexivity.
    + unfold swapState.
      cbn [currentOperand previousOperand operation option_map].
      rewrite swapOperation_involutive. reflexivity.
  - apply duplicate_compute.
  - reflexivity.
Qed.

(** X10: the second copy of the reducer is the first one with the tags
    Divide and Multiply exchanged.  On every state and every sequence of
    actions, the second copy reaches the state that the first copy reaches
    from the same state with the exchanged pending operation, by the same
    actions with the exchanged payloads, the pending operation of the
    result exchanged back. *)
Theorem duplicate_is_swapped_calculator
    (actions : list CalculatorAction) (s : CalculatorState) :
  run Duplicate.executeOperation s actions
  = swapState (Calculator.run (swapState s) (map swapAction actions)).
Proof.
  unfold Calculator.run. revert s.
  induction actions as [|a actions IH]; intros s.
  - simpl. symmetry. apply swapState_involutive.
  - cbn [map]. rewrite !run_cons, IH. do 2 f_equal.
    change (calculatorReducer Duplicate.executeOperation s a)
      with (Duplicate.calculatorReducer s a).
    rewrite duplicate_reducer, swapState_involutive. reflexivity.
Qed.

Lemma additive_compute (s : CalculatorState) :
  match operation s with Some op => additive op = true | None => True end ->
  Duplicate.compute s = Calculator.compute s.
Proof.
  unfold Duplicate.compute, Calculator.compute, compute.
  destruct (_ || _); [ reflexivity | ].
  destruct (operation s) as [[ | | | ]|]; intros H;
    try reflexivity; discriminate H.
Qed.

(** X11: the two copies agree as long as neither Divide nor Multiply is
    used.  From a state whose pending operation, if any, is Add or
    Subtract, every sequence of actions that chooses only Add and Subtract
    leads the two copies of the reducer to the same state. *)
Theorem copies_agree_on_additive
    (actions : list CalculatorAction) (s : CalculatorState) :
  match operation s with Some op => additive op = true | None => True end ->
  forallb additiveAction actions = true ->
  run Duplicate.executeOperation s actions = Calculator.run s actions.
Proof.
  unfold Calculator.run. revert s.
  induction actions as [|a actions IH]; intros s Hs Hall.
  - reflexivity.
  - cbn [forallb] in Hall. apply andb_prop in Hall.
    destruct Hall as [Ha Hall].
    rewrite !run_cons.
    assert (Hstep : calculatorReducer Duplicate.executeOperation s a
                    = calculatorReducer Calculator.executeOperation s a).
    { destruct a as [d | | | op | | ]; cbn [calculatorReducer];
        try reflexivity.
      - change (compute Duplicate.executeOperation s)
          with (Duplicate.compute s).
        rewrite (additive_compute s Hs). reflexivity.
      - apply (additive_compute s Hs). }
    rewrite Hstep. apply IH; [ | exact Hall ].
    destruct a as [d | | | op | | ]; cbn [calculatorReducer operation];
      try exact Hs; try exact I.
    + exact Ha.
    + destruct (compute_cases Calculator.executeOperation s) as [H | [r H]];
        rewrite H; [ exact Hs | exact I ].
Qed.

Lemma copies_agree_on_additive_witness :
  run Duplicate.executeOperation DEFAULT_CALCULATOR_STATE
    [AppendNumberAction (of_Z 5); ChooseOperation Operation.add;
     AppendNumberAction (of_Z 3); ChooseOperation Operation.subtract;
     AppendNumberAction (of_Z 1); ComputeAction]
  = Calculator.run DEFAULT_CALCULATOR_STATE
      [AppendNumberAction (of_Z 5); ChooseOperation Operation.add;
       AppendNumberAction (of_Z 3); ChooseOperation Operation.subtract;
       AppendNumberAction (of_Z 1); ComputeAction].
Proof.
  apply (copies_agree_on_additive
           [AppendNumberAction (of_Z 5); ChooseOperation Operation.add;
            AppendNumberAction (of_Z 3); ChooseOperation Operation.subtract;
            AppendNumberAction (of_Z 1); ComputeAction]
           DEFAULT_CALCULATOR_STATE I eq_refl).
Defined.

(** ** The buttons of [App] *)

Lemma button_digitPayload (b : App.ButtonProps) :
  In b App.buttons -> digitPayload (App.onClick b) = true.
Proof.
  unfold App.buttons. cbn [In]. intros H.
  repeat (destruct H as [<- | H]; [ vm_compute; reflexivity | ]).
  contradiction.
Qed.

Lemma clicks_digitPayload (clicks : list App.ButtonProps) :
  Forall (fun b => In b App.buttons) clicks ->
  forallb digitPayload (map App.onClick clicks) = true.
Proof.
  induction 1 as [|b clicks Hb _ IH]; simpl; [ reflexivity | ].
  rewrite (button_digitPayload b Hb), IH. reflexivity.
Qed.

Lemma onePoint_previous_step executeOperation
    (s : CalculatorState) (a : CalculatorAction) :
  onePoint s ->
  (countPoints (previousOperand s) <= 1)%nat ->
  (countPoints
     (previousOperand (calculatorReducer executeOperation s a)) <= 1)%nat.
Proof.
  intros Hc Hp.
  destruct a as [d | | | op | | ];
    cbn [calculatorReducer previousOperand]; try exact Hp.
  - destruct (truthy (operation s)); [ | exact Hc ].
    apply onePoint_compute, Hc.
  - destruct (compute_cases executeOperation s) as [H | [r H]]; rewrite H;
      [ exact Hp | simpl; lia ].
  - simpl. lia.
Qed.

(** X12: whatever buttons of the calculator are clicked, in whatever
    order, starting from the default state, each of the two operands holds
    at most one decimal point, and a non-empty [previousOperand] comes with
    a pending operation. *)
Theorem clicks_keep_operands_well_formed (clicks : list App.ButtonProps) :
  Forall (fun b => In b App.buttons) clicks ->
  (countPoints
     (currentOperand (App.clicked DEFAULT_CALCULATOR_STATE clicks)) <= 1)%nat
  /\ (countPoints
        (previousOperand (App.clicked DEFAULT_CALCULATOR_STATE clicks))
      <= 1)%nat
  /\ (previousOperand (App.clicked DEFAULT_CALCULATOR_STATE clicks) <> "" ->
      operation (App.clicked DEFAULT_CALCULATOR_STATE clicks) <> None).
Proof.
  intros Hall. unfold App.clicked, Calculator.run.
  apply (run_preserves Calculator.executeOperation
           (fun s => onePoint s
                     /\ (countPoints (previousOperand s) <= 1)%nat
                     /\ previousHasOperation s)
           digitPayload).
  - intros s a [Hc [Hp Ho]] Ha. split; [ | split ].
    + apply onePoint_step; assumption.
    + apply onePoint_previous_step; assumption.
    + apply previousHasOperation_step, Ho.
  - split; [ | split ].
    + unfold onePoint. simpl. lia.
    + simpl. lia.
    + intros H. contradiction H. reflexivity.
  - apply clicks_digitPayload, Hall.
Qed.

Lemma clicks_keep_operands_well_formed_witness :
  (countPoints
     (currentOperand
        (App.clicked DEFAULT_CALCULATOR_STATE
           [App.createNumberButtonProps (of_Z 7);
            App.createOperationButtonProps Operation.divide;
            App.createNumberButtonProps (of_Z 2)]))
   <= 1)%nat.
Proof.
  refine (proj1 (clicks_keep_operands_well_formed
                   [App.createNumberButtonProps (of_Z 7);
                    App.createOperationButtonProps Operation.divide;
                    App.createNumberButtonProps (of_Z 2)] _)).
  repeat (apply Forall_cons;
          [ unfold App.buttons; cbn [In];
            repeat (first [ left; reflexivity | right ]) | ]).
  apply Forall_nil.
Defined.

Lemma digit_button (c : ascii) :
  isDecimalDigit c = true ->
  In (App.createNumberButtonProps (of_Z (digitValue c))) App.buttons
  /\ toString (of_Z (digitValue c)) = String c "".
Proof.
  intros H.
  destruct c as [b0 b1 b2 b3 b4 b5 b6 b7].
  destruct b0, b1, b2, b3, b4, b5, b6, b7;
    try (vm_compute in H; discriminate H);
    (split;
     [ unfold App.buttons; cbn [In];
       repeat (first [ left; reflexivity | right ])
     | vm_compute; reflexivity ]).
Qed.

(** X13: the keypad is complete and its labels are truthful.  For each of
    the ten digit characters there is a button labelled with that
    character whose click appends exactly that character to
    [currentOperand] and changes nothing else; for each of the four
    operations there is a button labelled with the string of the operation
    whose click dispatches ChooseOperation of that operation. *)
Theorem keypad_complete :
  (forall c : ascii,
      isDecimalDigit c = true ->
      exists b,
        In b App.buttons
        /\ App.value b = String c ""
        /\ forall s,
            App.clicked s [b]
            = {| currentOperand := currentOperand s ++ String c "";
                 previousOperand := previousOperand s;
                 operation := operation s |})
  /\ (forall op : Operation.t,
         exists b,
           In b App.buttons
           /\ App.value b = Operation.value op
           /\ App.onClick b = ChooseOperation op).
Proof.
  split.
  - intros c Hc. destruct (digit_button c Hc) as [Hin Hs].
    exists (App.createNumberButtonProps (of_Z (digitValue c))).
    split; [ exact Hin | ]. split; [ exact Hs | ].
    intros s. unfold App.clicked, Calculator.run.
    cbn [map App.onClick App.createNumberButtonProps].
    rewrite run_cons. cbn [calculatorReducer run fold_left].
    rewrite Hs. reflexivity.
  - intros op. exists (App.createOperationButtonProps op).
    split; [ | split; reflexivity ].
    unfold App.buttons. cbn [In].
    destruct op; repeat (first [ left; reflexivity | right ]).
Qed.

Lemma keypad_complete_witness :
  exists b,
    In b App.buttons
    /\ App.value b = "7"
    /\ forall s,
        App.clicked s [b]
        = {| currentOperand := currentOperand s ++ "7";
             previousOperand := previousOperand s;
             operation := operation s |}.
Proof.
  apply (proj1 keypad_complete "7"%char). reflexivity.
Defined.

(** ** Operands typed on the keypad *)

Lemma digit_first (c : ascii) (r : string) :
  isDecimalDigit c = true ->
  trimStart (String c r) = String c r
  /\ signed (String c r) = (false, String c r)
  /\ prefix "Infinity" (String c r) = false.
Proof.
  intros H.
  destruct c as [b0 b1 b2 b3 b4 b5 b6 b7].
  destruct b0, b1, b2, b3, b4, b5, b6, b7;
    try (vm_compute in H; discriminate H);
    repeat split; reflexivity.
Qed.

Lemma decimalDigits_allDigits (ds : string) :
  allDigits ds = true ->
  forall acc n, exists v,
    forall r,
      decimalDigits acc n (ds ++ r)
      = decimalDigits v (n + String.length ds) r.
Proof.
  induction ds as [|c ds IH]; intros Hall acc n.
  - exists acc. intros r. simpl. rewrite Nat.add_0_r. reflexivity.
  - cbn [allDigits] in Hall. apply andb_prop in Hall.
    destruct Hall as [Hc Hds].
    destruct (IH Hds (10 * acc + digitValue c) (S n)) as [v Hv].
    exists v. intros r.
    cbn [append decimalDigits String.length]. rewrite Hc, Hv.
    f_equal. lia.
Qed.

(** A non-empty string of digits, with or without a decimal point after
    it, parses to the same number, which is not NaN. *)
Lemma parseFloat_digits (ds : string) :
  allDigits ds = true -> ds <> "" ->
  exists v,
    parseFloat ds = of_decimal false v 0
    /\ parseFloat (ds ++ ".") = of_decimal false v 0.
Proof.
  intros Hall Hne.
  destruct ds as [|c ds]; [ congruence | ].
  pose proof Hall as Hall'.
  cbn [allDigits] in Hall'. apply andb_prop in Hall'.
  destruct Hall' as [Hc _].
  destruct (decimalDigits_allDigits _ Hall 0 0%nat) as [v Hv].
  exists v.
  assert (Hparse : forall t,
             decimalDigits 0 0 (String c ds ++ t)
             = decimalDigits v (S (String.length ds)) t).
  { intros t. rewrite Hv. reflexivity. }
  split.
  - pose proof (Hparse "") as H0. rewrite append_empty_r in H0.
    destruct (digit_first c ds Hc) as [Ht [Hs Hp]].
    unfold parseFloat. rewrite Ht, Hs.
    unfold strUnsignedDecimalLiteral. rewrite Hp, H0. reflexivity.
  - pose proof (Hparse ".") as H1.
    change (String c ds ++ ".") with (String c (ds ++ ".")) in *.
    destruct (digit_first c (ds ++ ".") Hc) as [Ht [Hs Hp]].
    unfold parseFloat. rewrite Ht, Hs.
    unfold strUnsignedDecimalLiteral. rewrite Hp, H1. reflexivity.
Qed.

(** X14: a decimal point typed after the last digit does not change what
    Compute computes.  When both operands are non-empty strings of digits
    and an operation is pending, Compute gives the same state whether or
    not the previous operand is followed by a decimal point and whether or
    not the current operand is, in all four combinations: the state that
    holds the result of the operation on the two parsed digit strings. *)
Theorem trailing_point_ignored
    (previous current : string) (op : Operation.t)
    (pointPrevious pointCurrent : bool) :
  allDigits previous = true -> previous <> "" ->
  allDigits current = true -> current <> "" ->
  Calculator.calculatorReducer
    {| currentOperand := current ++ (if pointCurrent then "." else "");
       previousOperand := previous ++ (if pointPrevious then "." else "");
       operation := Some op |} ComputeAction
  = {| currentOperand :=
         toString (Calculator.executeOperation op
                     (parseFloat previous) (parseFloat current));
       previousOperand := "";
       operation := None |}.
Proof.
  intros Hp Hpn Hc Hcn.
  destruct (parseFloat_digits previous Hp Hpn) as [vp [Hp0 Hp1]].
  destruct (parseFloat_digits current Hc Hcn) as [vc [Hc0 Hc1]].
  assert (Hpp : parseFloat (previous ++ (if pointPrevious then "." else ""))
                = parseFloat previous).
  { destruct pointPrevious; [ congruence | now rewrite append_empty_r ]. }
  assert (Hcc : parseFloat (current ++ (if pointCurrent then "." else ""))
                = parseFloat current).
  { destruct pointCurrent; [ congruence | now rewrite append_empty_r ]. }
  unfold Calculator.calculatorReducer. cbn [calculatorReducer].
  rewrite (compute_parsed _ _ op);
    cbn [currentOperand previousOperand operation];
    rewrite ?Hpp, ?Hcc; try reflexivity.
  - rewrite Hp0. apply of_decimal_not_NaN.
  - rewrite Hc0. apply of_decimal_not_NaN.
Qed.

Lemma trailing_point_ignored_witness :
  Calculator.calculatorReducer
    {| currentOperand := "4" ++ "."; previousOperand := "10" ++ "";
       operation := Some Operation.divide |} ComputeAction
  = {| currentOperand :=
         toString (Calculator.executeOperation Operation.divide
                     (parseFloat "10") (parseFloat "4"));
       previousOperand := "";
       operation := None |}.
Proof.
  apply (trailing_point_ignored "10" "4" Operation.divide false true
           eq_refl ltac:(discriminate) eq_refl ltac:(discriminate)).
Defined.

(** ** The dispatch on values outside the declared types *)

(** X15: what the missing [default] cases do at run time.  On an action
    object whose [type] is none of the six tags the reducer returns
    [undefined], not a state; and when the pending operation is a string
    that is none of the four members of the enum while both operands
    parse, [compute] throws, because the evaluator returns [undefined]. *)
Theorem untyped_input_is_not_handled :
  (forall (state : Runtime.StateObject) (action : Runtime.ActionObject),
      ~ In (Runtime.action_type action)
          ["appendNumber"; "deleteDigit"; "addDecimalPoint";
           "chooseOperation"; "compute"; "clear"] ->
      Runtime.calculatorReducer state action = Runtime.ReturnsUndefined)
  /\ (forall (state : Runtime.StateObject) (tag : string),
         Runtime.state_operation state = Some tag ->
         ~ In tag (map Operation.value
                     [Operation.add; Operation.subtract;
                      Operation.divide; Operation.multiply]) ->
         isNaN (parseFloat (Runtime.state_previousOperand state)) = false ->
         isNaN (parseFloat (Runtime.state_currentOperand state)) = false ->
         Runtime.compute state = Runtime.Throws).
Proof.
  split.
  - intros state action Hnot. unfold Runtime.calculatorReducer.
    cbn [In] in Hnot.
    repeat match goal with
           | |- context [String.eqb ?x ?y] =>
               destruct (String.eqb_spec x y) as [He | _];
               [ exfalso; apply Hnot; rewrite He; tauto | ]
           end.
    reflexivity.
  - intros state tag Ho Hnot Hp Hc.
    unfold Runtime.compute. rewrite Hp, Hc, Ho. cbn [orb].
    unfold Runtime.executeOperation.
    cbn [map In] in Hnot.
    repeat match goal with
           | |- context [String.eqb ?x ?y] =>
               destruct (String.eqb_spec x y) as [He | _];
               [ exfalso; apply Hnot; rewrite He; tauto | ]
           end.
    reflexivity.
Qed.

Lemma untyped_input_is_not_handled_witness :
  Runtime.calculatorReducer Runtime.DEFAULT_CALCULATOR_STATE
    {| Runtime.action_type := "negate";
       Runtime.action_digit := None;
       Runtime.action_operation := None |}
  = Runtime.ReturnsUndefined
  /\ Runtime.compute
       {| Runtime.state_currentOperand := "2";
          Runtime.state_previousOperand := "3";
          Runtime.state_operation := Some "^" |}
     = Runtime.Throws.
Proof.
  split.
  - apply (proj1 untyped_input_is_not_handled).
    cbn [In Runtime.action_type]. intros H.
    repeat (destruct H as [H | H]; [ discriminate H | ]).
    exact H.
  - apply (proj2 untyped_input_is_not_handled _ "^").
    + reflexivity.
    + cbn [In map]. intros H.
      repeat (destruct H as [H | H]; [ discriminate H | ]).
      exact H.
    + vm_compute. reflexivity.
    + vm_compute. reflexivity.
Defined.

(** X16: the second copy of the reducer keeps the same operands well
    formed.  In every state it reaches from the default state by actions
    whose AppendDigit payloads are the digits 0 to 9, each operand holds at
    most one decimal point and a non-empty [previousOperand] comes with a
    pending operation. *)
Theorem duplicate_keeps_operands_well_formed
    (actions : list CalculatorAction) :
  forallb digitPayload actions = true ->
  (countPoints
     (currentOperand
        (run Duplicate.executeOperation DEFAULT_CALCULATOR_STATE actions))
   <= 1)%nat
  /\ (countPoints
        (previousOperand
           (run Duplicate.executeOperation DEFAULT_CALCULATOR_STATE actions))
      <= 1)%nat
  /\ (previousOperand
        (run Duplicate.executeOperation DEFAULT_CALCULATOR_STATE actions)
      <> "" ->
      operation
        (run Duplicate.executeOperation DEFAULT_CALCULATOR_STATE actions)
      <> None).
Proof.
  intros Hall.
  apply (run_preserves Duplicate.executeOperation
           (fun s => onePoint s
                     /\ (countPoints (previousOperand s) <= 1)%nat
                     /\ previousHasOperation s)
           digitPayload).
  - intros s a [Hc [Hp Ho]] Ha. split; [ | split ].
    + apply onePoint_step; assumption.
    + apply onePoint_previous_step; assumption.
    + apply previousHasOperation_step, Ho.
  - split; [ | split ].
    + unfold onePoint. simpl. lia.
    + simpl. lia.
    + intros H. contradiction H. reflexivity.
  - exact Hall.
Qed.

Lemma duplicate_keeps_operands_well_formed_witness :
  (countPoints
     (currentOperand
        (run Duplicate.executeOperation DEFAULT_CALCULATOR_STATE
           [AppendNumberAction (of_Z 6); AddDecimalPointAction;
            ChooseOperation Operation.divide; AppendNumberAction (of_Z 3);
            AddDecimalPointAction; AppendNumberAction (of_Z 5);
            ComputeAction; AddDecimalPointAction]))
   <= 1)%nat.
Proof.
  apply (proj1 (duplicate_keeps_operands_well_formed
                  [AppendNumberAction (of_Z 6); AddDecimalPointAction;
                   ChooseOperation Operation.divide;
                   AppendNumberAction (of_Z 3);
                   AddDecimalPointAction; AppendNumberAction (of_Z 5);
                   ComputeAction; AddDecimalPointAction]
                  eq_refl)).
Defined.
